(** * KnowledgeLayerDashboard: route graph export and channel correlation

    A shallow embedding of
    [src/frontend/src/app/components/KnowledgeLayerDashboard.js].

    The component keeps three pieces of React state, registers two message
    handlers on mount, sends requests through [sendMessage], and turns the
    route metadata it received into DOT text that is copied to the clipboard.

    - JavaScript strings are sequences of UTF-16 code units: [list N].
    - React state is a record; every handler is a function on a [World]
      that threads the component state, the adapter's handler registry, the
      document body and the list of observable effects.
    - The channel adapter's registry is a [gmap] keyed by (namespace, action). *)

From Stdlib Require Import String Ascii NArith.
From stdpp Require Import base option list gmap strings.

Local Open Scope list_scope.

(** ** JavaScript strings *)

Module Js.

Local Open Scope N_scope.

(** A string value: its UTF-16 code units. *)
Definition jsstring := list N.

(** A source literal made of ASCII characters only. *)
Definition lit (s : String.string) : jsstring :=
  map N_of_ascii (list_ascii_of_string s).

(** The escape [\n] of the source literals. *)
Definition nl : jsstring := [10].

(** The double-quote character (code unit 34) of the templates. *)
Definition quote : jsstring := [34].

(** [WhiteSpace] and [LineTerminator] code points of ECMAScript, the
    characters [String.prototype.trim] strips. All of them are in the
    basic plane, so each is one code unit. *)
Definition isWhiteSpace (c : N) : bool :=
  (c =? 9) || (c =? 10) || (c =? 11) || (c =? 12) || (c =? 13) ||
  (c =? 32) || (c =? 160) || (c =? 5760) ||
  ((8192 <=? c) && (c <=? 8202)) ||
  (c =? 8232) || (c =? 8233) || (c =? 8239) || (c =? 8287) ||
  (c =? 12288) || (c =? 65279).

Fixpoint trimStart (s : jsstring) : jsstring :=
  match s with
  | [] => []
  | c :: s' => if isWhiteSpace c then trimStart s' else s
  end.

Definition trimEnd (s : jsstring) : jsstring :=
  rev (trimStart (rev s)).

(** [s.trim()] *)
Definition trim (s : jsstring) : jsstring := trimEnd (trimStart s).

(** Truthiness of a string: only the empty string is falsy. *)
Definition truthy_string (s : jsstring) : bool :=
  match s with [] => false | _ :: _ => true end.

End Js.

Import Js.

(** ** Data received from the knowledge layer *)

(** One entry of a route's [related] array. *)
Record RelatedRoute := mkRelated {
  rel_pattern : jsstring;
  relationship : jsstring
}.

(** One entry of [explainer_routes]. *)
Record Route := mkRoute {
  pattern : jsstring;
  related : list RelatedRoute
}.

(** The payload of a [get_routes] response. *)
Record RouteSet := mkRouteSet {
  explainer_routes : list Route
}.

(** The values that reach the component: [null] (the initial routes state),
    strings, and objects of the [get_routes] response schema. *)
Inductive JsValue :=
| JNull
| JString (s : jsstring)
| JRoutes (rs : RouteSet).

(** [!v] is false exactly on truthy values. *)
Definition truthy (v : JsValue) : bool :=
  match v with
  | JNull => false
  | JString s => truthy_string s
  | JRoutes _ => true
  end.

(** ** Graph construction (lines 51-64) *)

Record Edge := mkEdge {
  source : jsstring;
  target : jsstring;
  label : jsstring
}.

(** [arr.push(x)] on an array held as a list. *)
Definition push {A : Type} (arr : list A) (x : A) : list A := arr ++ [x].

(** The inner [forEach] over [explainerRoute.related]. *)
Definition push_related (explainerRoute : Route)
    (explainerGraphEdges : list Edge) : list Edge :=
  foldl (fun edges relatedRoute =>
           push edges {| source := pattern explainerRoute;
                         target := rel_pattern relatedRoute;
                         label := relationship relatedRoute |})
        explainerGraphEdges (related explainerRoute).

(** The outer [forEach] over [explainer_routes], starting from two empty
    arrays; the result is the pair (explainerGraphNodes, explainerGraphEdges). *)
Definition build_graph (rs : RouteSet) : list jsstring * list Edge :=
  foldl (fun '(nodes, edges) explainerRoute =>
           (push nodes (pattern explainerRoute),
            push_related explainerRoute edges))
        ([], []) (explainer_routes rs).

Definition explainerGraphNodes (rs : RouteSet) : list jsstring :=
  fst (build_graph rs).

Definition explainerGraphEdges (rs : RouteSet) : list Edge :=
  snd (build_graph rs).

(** ** DOT serialization (lines 70-79) *)

(** The node template: two spaces, the node between double quotes, a
    semicolon, a newline. *)
Definition node_line (node : jsstring) : jsstring :=
  lit "  " ++ quote ++ node ++ quote ++ lit ";" ++ nl.

(** The edge template: two spaces, quoted source, an arrow, quoted target,
    the bracketed label attribute with the quoted label, a semicolon, a
    newline. *)
Definition edge_line (edge : Edge) : jsstring :=
  lit "  " ++ quote ++ source edge ++ quote ++ lit " -> " ++
  quote ++ target edge ++ quote ++ lit " [label=" ++
  quote ++ label edge ++ quote ++ lit "];" ++ nl.

(** [let dot = ...; nodes.forEach(dot += ...); edges.forEach(dot += ...);
    dot += closing brace and newline]. *)
Definition dot_of_graph (nodes : list jsstring) (edges : list Edge) : jsstring :=
  let dot := lit "digraph KnowledgeRoutes {" ++ nl in
  let dot := foldl (fun dot node => dot ++ node_line node) dot nodes in
  let dot := foldl (fun dot edge => dot ++ edge_line edge) dot edges in
  dot ++ (lit "}" ++ nl).

Definition dot_of_routes (rs : RouteSet) : jsstring :=
  dot_of_graph (explainerGraphNodes rs) (explainerGraphEdges rs).

(** The serialization as section 4.4 of the specification words it: header,
    one line per node, one line per edge, closing brace. *)
Definition serialize_spec (nodes : list jsstring) (edges : list Edge) : jsstring :=
  lit "digraph KnowledgeRoutes {" ++ nl ++
  concat (map node_line nodes) ++
  concat (map edge_line edges) ++
  lit "}" ++ nl.

(** ** Component state, props and observable effects *)

(** The three props, each either supplied or not; the code only tests them
    for truthiness before calling them. *)
Record Props := mkProps {
  sendMessage : bool;
  registerMessageHandler : bool;
  deregisterMessageHandler : bool
}.

(** The three [useState] cells. *)
Record State := mkState {
  knowledgeQueryInput : jsstring;
  knowledgeLayerRoutes : JsValue;
  knowledgeQueryResponse : JsValue
}.

(** [useState("")], [useState(null)], [useState("")]. *)
Definition initial_state : State :=
  {| knowledgeQueryInput := [];
     knowledgeLayerRoutes := JNull;
     knowledgeQueryResponse := JString [] |}.

(** The two closures registered by the first effect. *)
Inductive Callback :=
| OnGetRoutes
| OnQueryKnowledge.

(** The second argument of a console call. *)
Inductive LogArg :=
| NoArg
| ArgValue (v : JsValue)
| ArgNodes (nodes : list jsstring)
| ArgEdges (edges : list Edge)
| ArgError (err : jsstring).

(** Everything the component does to its surroundings, in program order. *)
Inductive Effect :=
| ConsoleLog (msg : String.string) (arg : LogArg)
| ConsoleError (msg : String.string) (arg : LogArg)
| Send (namespace action : String.string) (payload : option jsstring)
| RegisterHandler (namespace action : String.string) (cb : Callback)
| DeregisterHandler (namespace action : String.string)
| ClipboardWriteText (text : jsstring)
| AppendChild (node : nat)
| SelectText (node : nat)
| ExecCommand (command : String.string)
| RemoveChild (node : nat)
| ThrowTypeError.

(** A child of [document.body]. *)
Record Element := mkElement {
  node_id : nat;
  tagName : String.string;
  value : jsstring
}.

Record World := mkWorld {
  state : State;
  mounted : bool;
  (** whether the first effect returned its cleanup function *)
  cleanup : bool;
  (** the adapter's registry: one callback per (namespace, action) *)
  handlers : gmap (String.string * String.string) Callback;
  (** children of [document.body] *)
  body : list Element;
  (** [writeText] promises not settled yet *)
  pendingWrites : nat;
  effects : list Effect
}.

Definition initial_world : World :=
  {| state := initial_state; mounted := false; cleanup := false;
     handlers := ∅; body := []; pendingWrites := 0; effects := [] |}.

Definition with_state (s : State) (w : World) : World :=
  {| state := s; mounted := mounted w; cleanup := cleanup w;
     handlers := handlers w; body := body w;
     pendingWrites := pendingWrites w; effects := effects w |}.

Definition with_mounted (m : bool) (w : World) : World :=
  {| state := state w; mounted := m; cleanup := cleanup w;
     handlers := handlers w; body := body w;
     pendingWrites := pendingWrites w; effects := effects w |}.

Definition with_cleanup (c : bool) (w : World) : World :=
  {| state := state w; mounted := mounted w; cleanup := c;
     handlers := handlers w; body := body w;
     pendingWrites := pendingWrites w; effects := effects w |}.

Definition with_handlers (h : gmap (String.string * String.string) Callback)
    (w : World) : World :=
  {| state := state w; mounted := mounted w; cleanup := cleanup w;
     handlers := h; body := body w;
     pendingWrites := pendingWrites w; effects := effects w |}.

Definition with_body (b : list Element) (w : World) : World :=
  {| state := state w; mounted := mounted w; cleanup := cleanup w;
     handlers := handlers w; body := b;
     pendingWrites := pendingWrites w; effects := effects w |}.

Definition with_pending (n : nat) (w : World) : World :=
  {| state := state w; mounted := mounted w; cleanup := cleanup w;
     handlers := handlers w; body := body w;
     pendingWrites := n; effects := effects w |}.

(** Append one effect to the trace. *)
Definition emit (e : Effect) (w : World) : World :=
  {| state := state w; mounted := mounted w; cleanup := cleanup w;
     handlers := handlers w; body := body w;
     pendingWrites := pendingWrites w; effects := effects w ++ [e] |}.

(** The state setters. A setter of an unmounted component does nothing. *)
Definition setKnowledgeQueryInput (v : jsstring) (w : World) : World :=
  if mounted w then
    with_state {| knowledgeQueryInput := v;
                  knowledgeLayerRoutes := knowledgeLayerRoutes (state w);
                  knowledgeQueryResponse := knowledgeQueryResponse (state w) |} w
  else w.

Definition setKnowledgeLayerRoutes (v : JsValue) (w : World) : World :=
  if mounted w then
    with_state {| knowledgeQueryInput := knowledgeQueryInput (state w);
                  knowledgeLayerRoutes := v;
                  knowledgeQueryResponse := knowledgeQueryResponse (state w) |} w
  else w.

Definition setKnowledgeQueryResponse (v : JsValue) (w : World) : World :=
  if mounted w then
    with_state {| knowledgeQueryInput := knowledgeQueryInput (state w);
                  knowledgeLayerRoutes := knowledgeLayerRoutes (state w);
                  knowledgeQueryResponse := v |} w
  else w.

(** ** The channel adapter *)

Module Adapter.

(** Modelled from the spec: the adapter behind [registerMessageHandler]
    is not part of the component's file. Section 4.1: one callback per
    (namespace, action) key, a second registration replaces the first. *)
Definition register (namespace action : String.string) (cb : Callback)
    (w : World) : World :=
  emit (RegisterHandler namespace action cb)
       (with_handlers (<[(namespace, action) := cb]> (handlers w)) w).

(** Modelled from the spec: the adapter behind [deregisterMessageHandler]
    is not part of the component's file. Section 4.1: the callback of the
    key is removed. *)
Definition deregister (namespace action : String.string) (w : World) : World :=
  emit (DeregisterHandler namespace action)
       (with_handlers (delete (namespace, action) (handlers w)) w).

(** Modelled from the spec: the adapter behind [sendMessage] is not part of
    the component's file. Section 4.1: fire and forget; the call is
    recorded with its key and its optional payload. *)
Definition send (namespace action : String.string)
    (payload : option jsstring) (w : World) : World :=
  emit (Send namespace action payload) w.

End Adapter.

(** ** The two effects of the component (lines 12-35 and 123-125) *)

(** The callback bodies of lines 17-20 and 22-25. *)
Definition on_get_routes (response : JsValue) (w : World) : World :=
  let w := emit (ConsoleLog "Received knowledge layer routes:" (ArgValue response)) w in
  setKnowledgeLayerRoutes response w.

Definition on_query_knowledge (response : JsValue) (w : World) : World :=
  let w := emit (ConsoleLog "Received knowledge query response:" (ArgValue response)) w in
  setKnowledgeQueryResponse response w.

Definition run_callback (cb : Callback) (response : JsValue) (w : World) : World :=
  match cb with
  | OnGetRoutes => on_get_routes response w
  | OnQueryKnowledge => on_query_knowledge response w
  end.

(** The first effect, run once after the first render. It returns its
    cleanup function only when it got past the guard of line 13. *)
Definition register_effect (p : Props) (w : World) : World :=
  if negb (registerMessageHandler p) then
    let w := emit (ConsoleError "registerMessageHandler is not provided" NoArg) w in
    with_cleanup false w
  else
    let w := Adapter.register "knowledge_layer" "get_routes" OnGetRoutes w in
    let w := Adapter.register "knowledge_layer" "query_knowledge" OnQueryKnowledge w in
    with_cleanup true w.

(** The cleanup function of lines 27-34. *)
Definition cleanup_effect (p : Props) (w : World) : World :=
  if deregisterMessageHandler p then
    let w := Adapter.deregister "knowledge_layer" "get_routes" w in
    Adapter.deregister "knowledge_layer" "query_knowledge" w
  else
    emit (ConsoleError "deregisterMessageHandler is not provided" NoArg) w.

(** The second effect: logs the response after the first render and after
    every render in which the response differs from the previous one. *)
Definition response_effect (w : World) : World :=
  emit (ConsoleLog "Knowledge Query Response Updated:"
          (ArgValue (knowledgeQueryResponse (state w)))) w.

(** Dependency comparison of the second effect, between the stored response
    and a received one: strings by content, [null] with itself; a received
    object is a new object. *)
Definition same_value (a b : JsValue) : bool :=
  match a, b with
  | JNull, JNull => true
  | JString s, JString t => bool_decide (s = t)
  | _, _ => false
  end.

(** First render of a new instance, then both effects in source order. *)
Definition mount (p : Props) (w : World) : World :=
  let w := with_mounted true (with_state initial_state w) in
  let w := register_effect p w in
  response_effect w.

(** Unmounting runs the cleanup function when the first effect returned one. *)
Definition unmount (p : Props) (w : World) : World :=
  let w := if cleanup w then cleanup_effect p w else w in
  with_cleanup false (with_mounted false w).

(** ** The operations behind the buttons *)

(** Lines 37-43. *)
Definition getKnowledgeRoutes (p : Props) (w : World) : World :=
  if negb (sendMessage p) then
    emit (ConsoleError "websocket is not connected" NoArg) w
  else
    Adapter.send "knowledge_layer" "get_routes" None w.

(** Lines 107-121. *)
Definition queryKnowledge (p : Props) (w : World) : World :=
  if negb (sendMessage p) then
    emit (ConsoleError "WebSocket is not connected" NoArg) w
  else if negb (truthy_string (trim (knowledgeQueryInput (state w)))) then
    emit (ConsoleError "Knowledge query input is empty" NoArg) w
  else
    Adapter.send "knowledge_layer" "query_knowledge"
      (Some (trim (knowledgeQueryInput (state w)))) w.

(** ** Clipboard export (lines 81-104) *)

(** How the promise of [navigator.clipboard.writeText] settles. *)
Inductive WriteOutcome :=
| WriteResolved
| WriteRejected (err : jsstring).

(** What [document.execCommand] does: it returns a boolean or throws. *)
Inductive ExecOutcome :=
| ExecReturned (ok : bool)
| ExecThrew (err : jsstring).

(** The browser at the time of the call: [navigator.clipboard] is there, or
    it is not and the copy command behaves as given. *)
Inductive Browser :=
| ClipboardApi
| NoClipboardApi (copy : ExecOutcome).

(** [document.createElement]: a new node, distinct from every attached one. *)
Definition createElement (tag : String.string) (w : World) : Element :=
  {| node_id := S (max_list (node_id <$> body w)); tagName := tag; value := [] |}.

Definition set_value (text : jsstring) (el : Element) : Element :=
  {| node_id := node_id el; tagName := tagName el; value := text |}.

Definition appendChild (el : Element) (w : World) : World :=
  emit (AppendChild (node_id el)) (with_body (body w ++ [el]) w).

Definition removeChild (el : Element) (w : World) : World :=
  emit (RemoveChild (node_id el))
       (with_body (filter (fun c => node_id c <> node_id el) (body w)) w).

(** The [try]/[catch] of lines 97-102. *)
Definition try_exec_copy (copy : ExecOutcome) (w : World) : World :=
  let w := emit (ExecCommand "copy") w in
  match copy with
  | ExecReturned _ => emit (ConsoleLog "DOT graph copied to clipboard!" NoArg) w
  | ExecThrew err => emit (ConsoleError "Failed to copy DOT graph:" (ArgError err)) w
  end.

(** The fallback branch, lines 93-103. *)
Definition copy_fallback (dot : jsstring) (copy : ExecOutcome) (w : World) : World :=
  let textarea := createElement "textarea" w in
  let textarea := set_value dot textarea in
  let w := appendChild textarea w in
  let w := emit (SelectText (node_id textarea)) w in
  let w := try_exec_copy copy w in
  removeChild textarea w.

(** Lines 82-104. The promise of the first branch settles later. *)
Definition copy_to_clipboard (dot : jsstring) (b : Browser) (w : World) : World :=
  match b with
  | ClipboardApi =>
      with_pending (S (pendingWrites w)) (emit (ClipboardWriteText dot) w)
  | NoClipboardApi copy => copy_fallback dot copy w
  end.

(** The [then] and [catch] callbacks of lines 85-90. *)
Definition write_settled (o : WriteOutcome) (w : World) : World :=
  match pendingWrites w with
  | O => w
  | S n =>
      let w := with_pending n w in
      match o with
      | WriteResolved => emit (ConsoleLog "DOT graph copied to clipboard!" NoArg) w
      | WriteRejected err =>
          emit (ConsoleError "Failed to copy DOT graph:" (ArgError err)) w
      end
  end.

(** ** Graph generation (lines 45-105) *)

Definition generateRouteDotGraph (b : Browser) (w : World) : World :=
  if negb (truthy (knowledgeLayerRoutes (state w))) then
    emit (ConsoleError "Knowledge Layer Routes are not available" NoArg) w
  else
    match knowledgeLayerRoutes (state w) with
    | JRoutes rs =>
        let nodes := explainerGraphNodes rs in
        let edges := explainerGraphEdges rs in
        let w := emit (ConsoleLog "Explainer Graph Nodes:" (ArgNodes nodes)) w in
        let w := emit (ConsoleLog "Explainer Graph Edges:" (ArgEdges edges)) w in
        let dot := dot_of_graph nodes edges in
        copy_to_clipboard dot b w
    | _ =>
        (* a truthy value without [explainer_routes]: calling [forEach] on
           [undefined] throws *)
        emit ThrowTypeError w
    end.

(** ** The session as a transition system *)

(** What can happen to a dashboard: it is mounted and unmounted by React,
    the operator uses the controls, the adapter delivers a message, a
    clipboard promise settles. [InvokeGenerate] calls the operation itself,
    whether or not its button is enabled. *)
Inductive Event :=
| Mount
| Unmount
| ClickGetRoutes
| InvokeGenerate (b : Browser)
| Keystroke (v : jsstring)
| ClickQuery
| Inbound (namespace action : String.string) (response : JsValue)
| WriteSettled (o : WriteOutcome).

(** Modelled from the spec: the adapter's dispatch is not part of the
    component's file. Section 4.1: an inbound message goes to the callback
    registered for its key and is dropped when there is none. After the
    callback React renders again, and the second effect runs again when the
    callback has set the query response to a different value. *)
Definition deliver (namespace action : String.string) (response : JsValue)
    (w : World) : World :=
  match handlers w !! (namespace, action) with
  | None => w
  | Some cb =>
      let before := knowledgeQueryResponse (state w) in
      let w := run_callback cb response w in
      match cb with
      | OnGetRoutes => w
      | OnQueryKnowledge =>
          if mounted w && negb (same_value before response)
          then response_effect w else w
      end
  end.

Definition step (p : Props) (e : Event) (w : World) : World :=
  match e with
  | Mount => if mounted w then w else mount p w
  | Unmount => if mounted w then unmount p w else w
  | ClickGetRoutes => if mounted w then getKnowledgeRoutes p w else w
  | InvokeGenerate b => if mounted w then generateRouteDotGraph b w else w
  | Keystroke v => setKnowledgeQueryInput v w
  | ClickQuery => if mounted w then queryKnowledge p w else w
  | Inbound namespace action response => deliver namespace action response w
  | WriteSettled o => write_settled o w
  end.

Definition run (p : Props) (events : list Event) (w : World) : World :=
  foldl (fun w e => step p e w) w events.

(** The messages handed to [sendMessage] so far. *)
Definition messages (w : World)
    : list (String.string * String.string * option jsstring) :=
  omap (fun e => match e with
                 | Send namespace action payload => Some (namespace, action, payload)
                 | _ => None
                 end) (effects w).

(** The diagnostics written with [console.error] so far. *)
Definition diagnostics (w : World) : list String.string :=
  omap (fun e => match e with
                 | ConsoleError msg _ => Some msg
                 | _ => None
                 end) (effects w).

(** The calls made to [deregisterMessageHandler] so far. *)
Definition deregistrations (w : World) : list (String.string * String.string) :=
  omap (fun e => match e with
                 | DeregisterHandler namespace action => Some (namespace, action)
                 | _ => None
                 end) (effects w).

(** ** What is rendered (lines 127-171) *)

Record View := mkView {
  (** [disabled] of the second button *)
  generate_disabled : bool;
  (** [value] of the input *)
  input_value : jsstring;
  (** the child of the [pre] element *)
  response_display : JsValue
}.

Definition render (w : World) : View :=
  {| generate_disabled := negb (truthy (knowledgeLayerRoutes (state w)));
     input_value := knowledgeQueryInput (state w);
     response_display := knowledgeQueryResponse (state w) |}.

(** An event that delivers a message for the given key. *)
Definition is_inbound (namespace action : String.string) (e : Event) : bool :=
  match e with
  | Inbound n a _ => bool_decide (n = namespace) && bool_decide (a = action)
  | _ => false
  end.

(** ** Reference definitions used in the statements *)

(** The edge pushed for one [related] entry of a route. *)
Definition edge_of (r : Route) (rel : RelatedRoute) : Edge :=
  {| source := pattern r; target := rel_pattern rel; label := relationship rel |}.

(** All edges of one route, in [related] order. *)
Definition edges_of (r : Route) : list Edge := map (edge_of r) (related r).

(** The two keys of the component. *)
Definition key_get_routes : String.string * String.string :=
  ("knowledge_layer", "get_routes").

Definition key_query_knowledge : String.string * String.string :=
  ("knowledge_layer", "query_knowledge").

(** No event of the list delivers a message for the key. *)
Definition no_inbound (key : String.string * String.string)
    (events : list Event) : bool :=
  forallb (fun e => negb (is_inbound key.1 key.2 e)) events.

(** The registry holds nothing but the component's own two callbacks, each
    under its own key. *)
Definition handlers_own (w : World) : Prop :=
  forall k cb, handlers w !! k = Some cb ->
    (k = key_get_routes /\ cb = OnGetRoutes) \/
    (k = key_query_knowledge /\ cb = OnQueryKnowledge).

(** What ties the cleanup function to the registration: it is installed
    exactly while the component is mounted with the registration capability,
    and then both callbacks are in the registry. *)
Definition session_inv (p : Props) (w : World) : Prop :=
  cleanup w = mounted w && registerMessageHandler p /\
  (cleanup w = true ->
   handlers w !! key_get_routes = Some OnGetRoutes /\
   handlers w !! key_query_knowledge = Some OnQueryKnowledge).

(** A session that could not register: what holds after every step. *)
Definition unregistered (w : World) : Prop :=
  "registerMessageHandler is not provided"%string ∈ diagnostics w /\
  handlers w = ∅ /\
  cleanup w = false /\
  knowledgeLayerRoutes (state w) = JNull /\
  knowledgeQueryResponse (state w) = JString [].

(** The query submission as the specification states it, with no condition
    on the props: a blank text sends nothing, changes nothing and reports
    the input error; any other text sends exactly one message carrying the
    trimmed text. *)
Definition query_claim_as_stated (p : Props) (w : World) : Prop :=
  let text := knowledgeQueryInput (state w) in
  let w' := queryKnowledge p w in
  (trim text = [] ->
     messages w' = messages w /\ state w' = state w /\
     diagnostics w' = diagnostics w ++ ["Knowledge query input is empty"%string]) /\
  (trim text <> [] ->
     messages w' = messages w ++
       [("knowledge_layer"%string, "query_knowledge"%string, Some (trim text))]).

(** The degraded session as the specification states it: without the
    registration capability the diagnostic is reported and no message is
    ever sent. *)
Definition inert_claim_as_stated (p : Props) (events : list Event) : Prop :=
  registerMessageHandler p = false ->
  let w := run p (Mount :: events) initial_world in
  "registerMessageHandler is not provided"%string ∈ diagnostics w /\
  messages w = [].

(** The teardown as the specification states it, with no condition on how
    the session started: unmounting deregisters both keys, or reports the
    diagnostic when the deregistration capability is missing. *)
Definition teardown_claim_as_stated (p : Props) (w : World) : Prop :=
  let w' := step p Unmount w in
  mounted w' = false /\
  if deregisterMessageHandler p
  then deregistrations w' = deregistrations w ++ [key_get_routes; key_query_knowledge]
  else diagnostics w' =
       diagnostics w ++ ["deregisterMessageHandler is not provided"%string].

(** * Properties *)

(** ** Graph construction *)

Lemma foldl_push {A B : Type} (f : A -> B) (l : list A) (acc : list B) :
  foldl (fun acc x => push acc (f x)) acc l = acc ++ map f l.
Proof.
  revert acc. induction l as [|x l IH]; intros acc; simpl.
  - by rewrite app_nil_r.
  - rewrite IH. unfold push. by rewrite <- app_assoc.
Qed.

Lemma push_related_app (r : Route) (edges : list Edge) :
  push_related r edges = edges ++ edges_of r.
Proof. unfold push_related, edges_of. apply (foldl_push (edge_of r)). Qed.

Lemma build_graph_from (routes : list Route) (nodes : list jsstring)
    (edges : list Edge) :
  foldl (fun '(nodes, edges) explainerRoute =>
           (push nodes (pattern explainerRoute),
            push_related explainerRoute edges))
        (nodes, edges) routes
  = (nodes ++ map pattern routes, edges ++ flat_map edges_of routes).
Proof.
  revert nodes edges. induction routes as [|r routes IH]; intros nodes edges; simpl.
  - by rewrite !app_nil_r.
  - rewrite IH, push_related_app. unfold push.
    by rewrite <- !app_assoc.
Qed.

Lemma nodes_are_patterns (rs : RouteSet) :
  explainerGraphNodes rs = map pattern (explainer_routes rs).
Proof. unfold explainerGraphNodes, build_graph. by rewrite build_graph_from. Qed.

Lemma edges_are_related (rs : RouteSet) :
  explainerGraphEdges rs = flat_map edges_of (explainer_routes rs).
Proof. unfold explainerGraphEdges, build_graph. by rewrite build_graph_from. Qed.

Lemma length_flat_map_edges (routes : list Route) :
  length (flat_map edges_of routes)
  = sum_list (map (fun r => length (related r)) routes).
Proof.
  induction routes as [|r routes IH]; simpl; [done|].
  rewrite length_app, IH. unfold edges_of. by rewrite length_map.
Qed.

(** C2: the graph has one node per top-level route, in input order and
    with duplicates kept, and one edge per [related] entry, ordered by route
    and then by position in [related]; each edge carries the route's pattern
    as source, the related pattern as target and the relationship as label.
    Hence the node count is the number of routes and the edge count is the
    sum of the [related] lengths. *)
Theorem build_graph_counts_and_order (rs : RouteSet) :
  explainerGraphNodes rs = map pattern (explainer_routes rs) /\
  explainerGraphEdges rs =
    flat_map (fun r =>
                map (fun rel => {| source := pattern r;
                                   target := rel_pattern rel;
                                   label := relationship rel |})
                    (related r))
             (explainer_routes rs) /\
  length (explainerGraphNodes rs) = length (explainer_routes rs) /\
  length (explainerGraphEdges rs)
  = sum_list (map (fun r => length (related r)) (explainer_routes rs)).
Proof.
  rewrite nodes_are_patterns, edges_are_related.
  repeat split.
  - by rewrite length_map.
  - apply length_flat_map_edges.
Qed.

(** Duplicate patterns give duplicate nodes. *)
Example build_graph_keeps_duplicates :
  explainerGraphNodes
    {| explainer_routes := [ {| pattern := lit "/a"; related := [] |};
                             {| pattern := lit "/a"; related := [] |} ] |}
  = [lit "/a"; lit "/a"].
Proof. reflexivity. Qed.

(** ** Serialization *)

Lemma foldl_append {A : Type} (f : A -> jsstring) (l : list A) (dot : jsstring) :
  foldl (fun dot x => dot ++ f x) dot l = dot ++ concat (map f l).
Proof.
  revert dot. induction l as [|x l IH]; intros dot; simpl.
  - by rewrite app_nil_r.
  - rewrite IH. by rewrite <- app_assoc.
Qed.

Lemma dot_of_graph_spec (nodes : list jsstring) (edges : list Edge) :
  dot_of_graph nodes edges = serialize_spec nodes edges.
Proof.
  unfold dot_of_graph, serialize_spec.
  rewrite !foldl_append. by rewrite <- !app_assoc.
Qed.

(** C1: for every route set the DOT text is the header line, one quoted
    line per node in node order, one arrow line with a quoted label per edge
    in edge order, and the closing brace line; patterns and relationships
    are copied between the quote characters as they are. With no routes the
    text is the header line followed by the closing brace line. *)
Theorem dot_text_exact (rs : RouteSet) :
  dot_of_routes rs =
    lit "digraph KnowledgeRoutes {" ++ nl ++
    concat (map (fun node => lit "  " ++ quote ++ node ++ quote ++ lit ";" ++ nl)
                (explainerGraphNodes rs)) ++
    concat (map (fun edge =>
                   lit "  " ++ quote ++ source edge ++ quote ++ lit " -> " ++
                   quote ++ target edge ++ quote ++ lit " [label=" ++
                   quote ++ label edge ++ quote ++ lit "];" ++ nl)
                (explainerGraphEdges rs)) ++
    lit "}" ++ nl
  /\ dot_of_routes {| explainer_routes := [] |}
     = lit "digraph KnowledgeRoutes {" ++ nl ++ lit "}" ++ nl.
Proof.
  split; [|reflexivity].
  unfold dot_of_routes. by rewrite dot_of_graph_spec.
Qed.

(** The empty route set, code unit by code unit. *)
Example dot_text_empty :
  dot_of_routes {| explainer_routes := [] |}
  = [100; 105; 103; 114; 97; 112; 104; 32; 75; 110; 111; 119; 108; 101; 100;
     103; 101; 82; 111; 117; 116; 101; 115; 32; 123; 10; 125; 10]%N.
Proof. reflexivity. Qed.

(** The example of the specification: route /a related to /b by depends_on. *)
Example dot_text_example :
  dot_of_routes
    {| explainer_routes :=
         [ {| pattern := lit "/a";
              related := [ {| rel_pattern := lit "/b";
                              relationship := lit "depends_on" |} ] |} ] |}
  = [100; 105; 103; 114; 97; 112; 104; 32; 75; 110; 111; 119; 108; 101; 100;
     103; 101; 82; 111; 117; 116; 101; 115; 32; 123; 10;
     32; 32; 34; 47; 97; 34; 59; 10;
     32; 32; 34; 47; 97; 34; 32; 45; 62; 32; 34; 47; 98; 34; 32; 91; 108; 97;
     98; 101; 108; 61; 34; 100; 101; 112; 101; 110; 100; 115; 95; 111; 110;
     34; 93; 59; 10;
     125; 10]%N.
Proof. reflexivity. Qed.

(** A pattern holding a quote character (a, quote, b) is written as it is:
    the node line has three quote characters. *)
Example dot_text_unescaped :
  dot_of_routes
    {| explainer_routes := [ {| pattern := [97; 34; 98]%N; related := [] |} ] |}
  = [100; 105; 103; 114; 97; 112; 104; 32; 75; 110; 111; 119; 108; 101; 100;
     103; 101; 82; 111; 117; 116; 101; 115; 32; 123; 10;
     32; 32; 34; 97; 34; 98; 34; 59; 10;
     125; 10]%N.
Proof. reflexivity. Qed.

(** ** Trimming *)

Lemma trimStart_head (s : jsstring) (c : N) (t : jsstring) :
  trimStart s = c :: t -> isWhiteSpace c = false.
Proof.
  induction s as [|d s IH]; simpl; [done|].
  destruct (isWhiteSpace d) eqn:Hd; [exact IH|].
  intros [= <- _]. exact Hd.
Qed.

Lemma trimStart_nil_iff (s : jsstring) :
  trimStart s = [] <-> forallb isWhiteSpace s = true.
Proof.
  induction s as [|c s IH]; simpl; [done|].
  destruct (isWhiteSpace c); simpl; [exact IH|]. split; discriminate.
Qed.

Lemma forallb_rev {A : Type} (f : A -> bool) (l : list A) :
  forallb f (rev l) = forallb f l.
Proof.
  induction l as [|x l IH]; simpl; [done|].
  rewrite forallb_app, IH. simpl. rewrite andb_true_r. apply andb_comm.
Qed.

Lemma trimEnd_nil_iff (s : jsstring) :
  trimEnd s = [] <-> forallb isWhiteSpace s = true.
Proof.
  unfold trimEnd. rewrite <- (forallb_rev _ s), <- trimStart_nil_iff.
  split; intros H.
  - apply (f_equal (@rev N)) in H. by rewrite rev_involutive in H.
  - by rewrite H.
Qed.

(** The trim of a text is empty exactly when every code unit of the text is
    white space: the blank and the whitespace-only texts. *)
Lemma trim_nil_iff (s : jsstring) :
  trim s = [] <-> forallb isWhiteSpace s = true.
Proof.
  unfold trim. rewrite trimEnd_nil_iff. split; intros H.
  - apply trimStart_nil_iff.
    destruct (trimStart s) as [|c t] eqn:Hs; [done|].
    apply trimStart_head in Hs. simpl in H. by rewrite Hs in H.
  - apply trimStart_nil_iff in H. by rewrite H.
Qed.

Example trim_example :
  trim (lit "  /docs/ue_1 ") = lit "/docs/ue_1" /\
  trim [32; 9; 10; 160; 8195; 65279]%N = [] /\
  trim [] = [].
Proof. repeat split. Qed.

(** ** Effects of single operations *)

Lemma messages_emit (e : Effect) (w : World) :
  messages (emit e w) =
  messages w ++ match e with
                | Send namespace action payload => [(namespace, action, payload)]
                | _ => []
                end.
Proof.
  unfold messages, emit; simpl. rewrite omap_app. by destruct e.
Qed.

Lemma diagnostics_emit (e : Effect) (w : World) :
  diagnostics (emit e w) =
  diagnostics w ++ match e with ConsoleError msg _ => [msg] | _ => [] end.
Proof.
  unfold diagnostics, emit; simpl. rewrite omap_app. by destruct e.
Qed.

Lemma deregistrations_emit (e : Effect) (w : World) :
  deregistrations (emit e w) =
  deregistrations w ++ match e with
                       | DeregisterHandler namespace action => [(namespace, action)]
                       | _ => []
                       end.
Proof.
  unfold deregistrations, emit; simpl. rewrite omap_app. by destruct e.
Qed.

Lemma truthy_string_false (s : jsstring) : truthy_string s = false <-> s = [].
Proof. by destruct s. Qed.

(** What [queryKnowledge] does, branch by branch. *)
Lemma queryKnowledge_cases (p : Props) (w : World) :
  queryKnowledge p w =
  if sendMessage p then
    match trim (knowledgeQueryInput (state w)) with
    | [] => emit (ConsoleError "Knowledge query input is empty" NoArg) w
    | _ :: _ =>
        emit (Send "knowledge_layer" "query_knowledge"
                (Some (trim (knowledgeQueryInput (state w))))) w
    end
  else emit (ConsoleError "WebSocket is not connected" NoArg) w.
Proof.
  unfold queryKnowledge, Adapter.send.
  destruct (sendMessage p); simpl; [|done].
  by destruct (trim (knowledgeQueryInput (state w))).
Qed.

(** C3, amended: when the [sendMessage] capability is supplied, a text
    whose trim is empty sends no message, leaves the state unchanged and
    reports the input error, and any other text sends exactly one message to
    (knowledge_layer, query_knowledge) with the trimmed text as payload.
    When the capability is not supplied nothing is sent for any text, the
    state is unchanged and the connection diagnostic is reported instead. *)
Theorem queryKnowledge_when_connected (p : Props) (w : World) :
  if sendMessage p then query_claim_as_stated p w
  else messages (queryKnowledge p w) = messages w /\
       state (queryKnowledge p w) = state w /\
       diagnostics (queryKnowledge p w) =
         diagnostics w ++ ["WebSocket is not connected"%string].
Proof.
  unfold query_claim_as_stated. rewrite queryKnowledge_cases.
  destruct (sendMessage p).
  - destruct (trim (knowledgeQueryInput (state w))) as [|c t]; split; try done.
    + intros _. by rewrite messages_emit, diagnostics_emit, app_nil_r.
    + intros _. by rewrite messages_emit.
  - by rewrite messages_emit, diagnostics_emit, app_nil_r.
Qed.

Lemma queryKnowledge_when_connected_witness :
  query_claim_as_stated
    {| sendMessage := true; registerMessageHandler := true;
       deregisterMessageHandler := true |}
    (run {| sendMessage := true; registerMessageHandler := true;
            deregisterMessageHandler := true |}
       [Mount; Keystroke (lit " /docs/ue_1 ")] initial_world).
Proof.
  exact (queryKnowledge_when_connected
           {| sendMessage := true; registerMessageHandler := true;
              deregisterMessageHandler := true |}
           (run {| sendMessage := true; registerMessageHandler := true;
                   deregisterMessageHandler := true |}
              [Mount; Keystroke (lit " /docs/ue_1 ")] initial_world)).
Defined.

(** C3 as stated fails without [sendMessage]: the text abc is not blank and
    no message is sent. *)
Lemma query_claim_counterexample :
  ~ query_claim_as_stated
      {| sendMessage := false; registerMessageHandler := true;
         deregisterMessageHandler := true |}
      (run {| sendMessage := false; registerMessageHandler := true;
              deregisterMessageHandler := true |}
           [Mount; Keystroke (lit "abc")] initial_world).
Proof.
  intros [_ H]. specialize (H ltac:(discriminate)). vm_compute in H. discriminate.
Qed.

(** ** Invariants of the session *)

(** Evaluation of the operations on a written-out world; the registry is
    left alone. *)
Ltac eval_ops :=
  cbv beta iota zeta delta
      [step mount unmount register_effect cleanup_effect response_effect
       getKnowledgeRoutes queryKnowledge generateRouteDotGraph
       copy_to_clipboard copy_fallback try_exec_copy appendChild removeChild
       write_settled deliver run_callback on_get_routes on_query_knowledge
       setKnowledgeQueryInput setKnowledgeLayerRoutes
       setKnowledgeQueryResponse
       Adapter.register Adapter.deregister Adapter.send
       emit with_state with_mounted with_cleanup with_handlers with_body
       with_pending
       state mounted cleanup handlers body pendingWrites effects
       knowledgeQueryInput knowledgeLayerRoutes knowledgeQueryResponse
       negb andb truthy truthy_string same_value fst snd] in *.

(** Case analysis on every test of an operation. *)
Ltac split_tests :=
  repeat (eval_ops; try done;
          match goal with
          | |- context [match ?x with _ => _ end] =>
              lazymatch x with
              | context [match _ with _ => _ end] => fail
              | _ => destruct x eqn:?
              end
          end).

Lemma run_app (p : Props) (l1 l2 : list Event) (w : World) :
  run p (l1 ++ l2) w = run p l2 (run p l1 w).
Proof. unfold run. apply foldl_app. Qed.

Lemma run_cons (p : Props) (e : Event) (l : list Event) (w : World) :
  run p (e :: l) w = run p l (step p e w).
Proof. reflexivity. Qed.

(** A property kept by every step is kept by every run. *)
Lemma run_invariant (P : World -> Prop) (p : Props) :
  (forall e w, P w -> P (step p e w)) ->
  forall events w, P w -> P (run p events w).
Proof.
  intros Hstep events. induction events as [|e events IH]; intros w Hw; [done|].
  rewrite run_cons. apply IH. by apply Hstep.
Qed.

(** The same for a property kept by the events that pass a test. *)
Lemma run_invariant_filtered (P : World -> Prop) (ok : Event -> bool) (p : Props) :
  (forall e w, ok e = true -> P w -> P (step p e w)) ->
  forall events w, forallb ok events = true -> P w -> P (run p events w).
Proof.
  intros Hstep events. induction events as [|e events IH]; intros w Hok Hw; [done|].
  simpl in Hok. apply andb_true_iff in Hok as [He Hok].
  rewrite run_cons. apply IH; [done|]. by apply Hstep.
Qed.

Lemma handlers_own_initial : handlers_own initial_world.
Proof. intros k cb H. simpl in H. by rewrite lookup_empty in H. Qed.

Lemma handlers_own_step (p : Props) (e : Event) (w : World) :
  handlers_own w -> handlers_own (step p e w).
Proof.
  intros Hw k cb. unfold handlers_own in Hw.
  destruct w as [st m c h b n eff]. destruct e; split_tests; try apply Hw.
  - intros H. apply lookup_insert_Some in H as [[<- <-]|[_ H]]; [by right|].
    apply lookup_insert_Some in H as [[<- <-]|[_ H]]; [by left|].
    by apply Hw.
  - intros H. apply lookup_delete_Some in H as [_ H].
    apply lookup_delete_Some in H as [_ H]. by apply Hw.
Qed.

Lemma handlers_own_run (p : Props) (events : list Event) :
  handlers_own (run p events initial_world).
Proof.
  apply (run_invariant handlers_own); [apply handlers_own_step|].
  apply handlers_own_initial.
Qed.

Lemma is_inbound_false (key : String.string * String.string)
    (namespace action : String.string) (r : JsValue) :
  is_inbound key.1 key.2 (Inbound namespace action r) = false ->
  (namespace, action) <> key.
Proof.
  destruct key as [n a]; simpl. intros H [= -> ->].
  by rewrite !bool_decide_eq_true_2 in H.
Qed.

(** Without a delivery for (knowledge_layer, get_routes) the routes stay
    [null]. *)
Lemma routes_absent_step (p : Props) (e : Event) (w : World) :
  negb (is_inbound key_get_routes.1 key_get_routes.2 e) = true ->
  handlers_own w /\ knowledgeLayerRoutes (state w) = JNull ->
  handlers_own (step p e w) /\ knowledgeLayerRoutes (state (step p e w)) = JNull.
Proof.
  intros He [Hown Hr]. split; [by apply handlers_own_step|].
  apply negb_true_iff in He. unfold handlers_own in Hown.
  destruct w as [st m c h b n eff].
  destruct e; try (split_tests; fail).
  apply is_inbound_false in He. eval_ops.
  destruct (h !! (namespace, action)) as [cb|] eqn:Hcb; [|done].
  destruct (Hown _ _ Hcb) as [[Hk ->]|[Hk ->]]; [done|].
  split_tests.
Qed.

Lemma routes_absent_run (p : Props) (events : list Event) :
  no_inbound key_get_routes events = true ->
  knowledgeLayerRoutes (state (run p events initial_world)) = JNull.
Proof.
  intros Hev.
  apply (run_invariant_filtered
           (fun w => handlers_own w /\ knowledgeLayerRoutes (state w) = JNull)
           (fun e => negb (is_inbound key_get_routes.1 key_get_routes.2 e)) p);
    [apply routes_absent_step|exact Hev|].
  split; [apply handlers_own_initial|done].
Qed.

(** C4: as long as no get_routes response has been received the routes are
    absent, and the graph operation then does one thing: it reports that the
    routes are not available. It builds no graph, writes no text to the
    clipboard, and leaves the state, the registry and the document as they
    were. *)
Theorem generate_without_routes (p : Props) (events : list Event) (b : Browser) :
  no_inbound key_get_routes events = true ->
  knowledgeLayerRoutes (state (run p events initial_world)) = JNull /\
  generateRouteDotGraph b (run p events initial_world)
  = emit (ConsoleError "Knowledge Layer Routes are not available" NoArg)
         (run p events initial_world).
Proof.
  intros Hev. pose proof (routes_absent_run p events Hev) as Hr.
  split; [exact Hr|]. unfold generateRouteDotGraph. by rewrite Hr.
Qed.

Lemma generate_without_routes_witness :
  no_inbound key_get_routes
    [Mount; ClickGetRoutes; Keystroke (lit "/docs");
     Inbound "knowledge_layer" "query_knowledge" (JString (lit "42"))] = true /\
  generateRouteDotGraph ClipboardApi
    (run {| sendMessage := true; registerMessageHandler := true;
            deregisterMessageHandler := true |}
         [Mount; ClickGetRoutes; Keystroke (lit "/docs");
          Inbound "knowledge_layer" "query_knowledge" (JString (lit "42"))]
         initial_world)
  = emit (ConsoleError "Knowledge Layer Routes are not available" NoArg)
      (run {| sendMessage := true; registerMessageHandler := true;
              deregisterMessageHandler := true |}
         [Mount; ClickGetRoutes; Keystroke (lit "/docs");
          Inbound "knowledge_layer" "query_knowledge" (JString (lit "42"))]
         initial_world).
Proof.
  split; [reflexivity|].
  apply (generate_without_routes
           {| sendMessage := true; registerMessageHandler := true;
              deregisterMessageHandler := true |}
           [Mount; ClickGetRoutes; Keystroke (lit "/docs");
            Inbound "knowledge_layer" "query_knowledge" (JString (lit "42"))]
           ClipboardApi).
  reflexivity.
Defined.

(** Without a delivery for (knowledge_layer, query_knowledge) the response
    stays the empty string. *)
Lemma response_empty_step (p : Props) (e : Event) (w : World) :
  negb (is_inbound key_query_knowledge.1 key_query_knowledge.2 e) = true ->
  handlers_own w /\ knowledgeQueryResponse (state w) = JString [] ->
  handlers_own (step p e w) /\
  knowledgeQueryResponse (state (step p e w)) = JString [].
Proof.
  intros He [Hown Hr]. split; [by apply handlers_own_step|].
  apply negb_true_iff in He. unfold handlers_own in Hown.
  destruct w as [st m c h b n eff].
  destruct e; try (split_tests; fail).
  apply is_inbound_false in He. eval_ops.
  destruct (h !! (namespace, action)) as [cb|] eqn:Hcb; [|done].
  destruct (Hown _ _ Hcb) as [[Hk ->]|[Hk ->]]; [|done].
  split_tests.
Qed.

(** C9: before any query_knowledge response has been delivered the stored
    response is the empty string, not an absent value, and the response
    area shows exactly that empty string. *)
Theorem response_initially_empty (p : Props) (events : list Event) :
  no_inbound key_query_knowledge events = true ->
  knowledgeQueryResponse (state (run p events initial_world)) = JString [] /\
  knowledgeQueryResponse (state (run p events initial_world)) <> JNull /\
  response_display (render (run p events initial_world)) = JString [].
Proof.
  intros Hev.
  assert (knowledgeQueryResponse (state (run p events initial_world)) = JString [])
    as Hr.
  { apply (run_invariant_filtered
             (fun w => handlers_own w /\ knowledgeQueryResponse (state w) = JString [])
             (fun e => negb (is_inbound key_query_knowledge.1
                                        key_query_knowledge.2 e)) p);
      [apply response_empty_step|exact Hev|].
    split; [apply handlers_own_initial|done]. }
  unfold render; simpl. by rewrite Hr.
Qed.

Lemma response_initially_empty_witness :
  no_inbound key_query_knowledge
    [Mount; Keystroke (lit " /docs "); ClickQuery;
     Inbound "knowledge_layer" "get_routes" (JRoutes {| explainer_routes := [] |})]
  = true /\
  response_display
    (render (run {| sendMessage := true; registerMessageHandler := true;
                    deregisterMessageHandler := true |}
               [Mount; Keystroke (lit " /docs "); ClickQuery;
                Inbound "knowledge_layer" "get_routes"
                  (JRoutes {| explainer_routes := [] |})]
               initial_world))
  = JString [].
Proof.
  split; [reflexivity|].
  apply (response_initially_empty
           {| sendMessage := true; registerMessageHandler := true;
              deregisterMessageHandler := true |}
           [Mount; Keystroke (lit " /docs "); ClickQuery;
            Inbound "knowledge_layer" "get_routes"
              (JRoutes {| explainer_routes := [] |})]).
  reflexivity.
Defined.

(** Steps only add effects. *)
Lemma effects_step_prefix (p : Props) (e : Event) (w : World) :
  effects w `prefix_of` effects (step p e w).
Proof.
  destruct w as [st m c h b n eff].
  destruct e; split_tests; repeat apply prefix_app_r; done.
Qed.

Lemma diagnostics_step (p : Props) (e : Event) (w : World) (msg : String.string) :
  msg ∈ diagnostics w -> msg ∈ diagnostics (step p e w).
Proof.
  destruct (effects_step_prefix p e w) as [l Hl].
  unfold diagnostics. rewrite Hl, omap_app. set_solver.
Qed.

Lemma unregistered_step (p : Props) (e : Event) (w : World) :
  registerMessageHandler p = false ->
  unregistered w -> unregistered (step p e w).
Proof.
  intros Hp (Hd & Hh & Hc & Hr & Hq).
  split; [by apply diagnostics_step|].
  clear Hd. destruct w as [st m c h b n eff]. eval_ops. subst h c.
  destruct e; eval_ops; rewrite ?Hp, ?lookup_empty; split_tests.
Qed.

Lemma unregistered_mount (p : Props) :
  registerMessageHandler p = false ->
  unregistered (step p Mount initial_world).
Proof.
  intros Hp. unfold unregistered, step, mount, register_effect; simpl.
  rewrite Hp; simpl. repeat split; try done.
  unfold diagnostics; simpl. set_solver.
Qed.

Lemma getKnowledgeRoutes_messages (p : Props) (w : World) :
  messages (getKnowledgeRoutes p w) =
  messages w ++
    (if sendMessage p
     then [("knowledge_layer"%string, "get_routes"%string, None)] else []).
Proof.
  unfold getKnowledgeRoutes, Adapter.send.
  destruct (sendMessage p); simpl; by rewrite messages_emit.
Qed.

Lemma queryKnowledge_messages (p : Props) (w : World) :
  messages (queryKnowledge p w) =
  messages w ++
    (if sendMessage p && truthy_string (trim (knowledgeQueryInput (state w)))
     then [("knowledge_layer"%string, "query_knowledge"%string,
            Some (trim (knowledgeQueryInput (state w))))]
     else []).
Proof.
  rewrite queryKnowledge_cases.
  destruct (sendMessage p); simpl; [|by rewrite messages_emit].
  destruct (trim (knowledgeQueryInput (state w))); by rewrite messages_emit.
Qed.

(** C5, amended: when [registerMessageHandler] is not supplied at session
    start the diagnostic is reported and the session goes on degraded: no
    handler is registered, so no response ever reaches the component, the
    routes stay absent and the response stays the empty string for the rest
    of the session. Sending does not depend on registration: the get_routes and
    query_knowledge messages still go out whenever [sendMessage] is
    supplied. *)
Theorem degraded_session (p : Props) (events : list Event) :
  registerMessageHandler p = false ->
  "registerMessageHandler is not provided"%string
    ∈ diagnostics (run p (Mount :: events) initial_world) /\
  handlers (run p (Mount :: events) initial_world) = ∅ /\
  knowledgeLayerRoutes (state (run p (Mount :: events) initial_world)) = JNull /\
  knowledgeQueryResponse (state (run p (Mount :: events) initial_world))
    = JString [] /\
  messages (getKnowledgeRoutes p (run p (Mount :: events) initial_world))
    = messages (run p (Mount :: events) initial_world) ++
      (if sendMessage p
       then [("knowledge_layer"%string, "get_routes"%string, None)] else []) /\
  messages (queryKnowledge p (run p (Mount :: events) initial_world))
    = messages (run p (Mount :: events) initial_world) ++
      (if sendMessage p &&
          truthy_string
            (trim (knowledgeQueryInput
                     (state (run p (Mount :: events) initial_world))))
       then [("knowledge_layer"%string, "query_knowledge"%string,
              Some (trim (knowledgeQueryInput
                            (state (run p (Mount :: events) initial_world)))))]
       else []).
Proof.
  intros Hp.
  assert (unregistered (run p (Mount :: events) initial_world))
    as (Hd & Hh & _ & Hr & Hq).
  { rewrite run_cons.
    apply (run_invariant unregistered); [intros; by apply unregistered_step|].
    by apply unregistered_mount. }
  repeat split; try done.
  - apply getKnowledgeRoutes_messages.
  - apply queryKnowledge_messages.
Qed.

Lemma degraded_session_witness :
  registerMessageHandler
    {| sendMessage := true; registerMessageHandler := false;
       deregisterMessageHandler := true |} = false /\
  knowledgeLayerRoutes
    (state (run {| sendMessage := true; registerMessageHandler := false;
                   deregisterMessageHandler := true |}
              (Mount :: [ClickGetRoutes;
                         Inbound "knowledge_layer" "get_routes"
                           (JRoutes {| explainer_routes := [] |})])
              initial_world)) = JNull.
Proof.
  split; [reflexivity|].
  apply (degraded_session
           {| sendMessage := true; registerMessageHandler := false;
              deregisterMessageHandler := true |}
           [ClickGetRoutes;
            Inbound "knowledge_layer" "get_routes"
              (JRoutes {| explainer_routes := [] |})]).
  reflexivity.
Defined.

(** C5 as stated fails: without registration but with [sendMessage], the
    first button still sends the get_routes message. *)
Lemma inert_claim_counterexample :
  ~ inert_claim_as_stated
      {| sendMessage := true; registerMessageHandler := false;
         deregisterMessageHandler := true |}
      [ClickGetRoutes].
Proof.
  intros H. destruct (H eq_refl) as [_ Hm]. vm_compute in Hm. discriminate.
Qed.

Lemma session_inv_initial (p : Props) : session_inv p initial_world.
Proof. split; [done|]. simpl. discriminate. Qed.

Lemma session_inv_step (p : Props) (e : Event) (w : World) :
  session_inv p w -> session_inv p (step p e w).
Proof.
  unfold session_inv. intros [Hc Hh].
  destruct w as [st m c h b n eff]. eval_ops.
  destruct e; split_tests; try (split; [done|exact Hh]).
  split; [done|]. intros _. unfold key_get_routes, key_query_knowledge. split.
  - rewrite lookup_insert_ne by discriminate. apply lookup_insert_eq.
  - apply lookup_insert_eq.
Qed.

Lemma session_inv_run (p : Props) (events : list Event) :
  session_inv p (run p events initial_world).
Proof.
  apply (run_invariant (session_inv p)); [apply session_inv_step|].
  apply session_inv_initial.
Qed.

(** ** Requests and responses *)

Lemma deliver_get_routes (response : JsValue) (w : World) :
  mounted w = true ->
  handlers w !! key_get_routes = Some OnGetRoutes ->
  deliver "knowledge_layer" "get_routes" response w =
  with_state {| knowledgeQueryInput := knowledgeQueryInput (state w);
                knowledgeLayerRoutes := response;
                knowledgeQueryResponse := knowledgeQueryResponse (state w) |}
    (emit (ConsoleLog "Received knowledge layer routes:" (ArgValue response)) w).
Proof.
  intros Hm Hh. unfold deliver. unfold key_get_routes in Hh. rewrite Hh.
  destruct w as [st m c h b n eff]. eval_ops. by subst m.
Qed.

(** C6: the get_routes request goes to (knowledge_layer, get_routes) with
    no payload, and a get_routes response delivered to the session replaces
    the stored routes by the received value whatever was stored before; the
    query text and the query response are untouched. *)
Theorem get_routes_replaces_wholesale (p : Props) (events : list Event)
    (response : JsValue) :
  registerMessageHandler p = true ->
  mounted (run p events initial_world) = true ->
  messages (getKnowledgeRoutes p (run p events initial_world))
    = messages (run p events initial_world) ++
      (if sendMessage p
       then [("knowledge_layer"%string, "get_routes"%string, None)] else []) /\
  state (step p (Inbound "knowledge_layer" "get_routes" response)
              (run p events initial_world))
    = {| knowledgeQueryInput :=
           knowledgeQueryInput (state (run p events initial_world));
         knowledgeLayerRoutes := response;
         knowledgeQueryResponse :=
           knowledgeQueryResponse (state (run p events initial_world)) |}.
Proof.
  intros Hp Hm. split; [apply getKnowledgeRoutes_messages|].
  destruct (session_inv_run p events) as [Hc Hh].
  rewrite Hm, Hp in Hc. destruct (Hh Hc) as [Hg _].
  unfold step. by rewrite deliver_get_routes.
Qed.

Lemma get_routes_replaces_wholesale_witness :
  registerMessageHandler
    {| sendMessage := true; registerMessageHandler := true;
       deregisterMessageHandler := true |} = true /\
  mounted
    (run {| sendMessage := true; registerMessageHandler := true;
            deregisterMessageHandler := true |}
       [Mount; ClickGetRoutes;
        Inbound "knowledge_layer" "get_routes"
          (JRoutes {| explainer_routes :=
                        [ {| pattern := lit "/a"; related := [] |} ] |})]
       initial_world) = true /\
  knowledgeLayerRoutes
    (state (step {| sendMessage := true; registerMessageHandler := true;
                    deregisterMessageHandler := true |}
              (Inbound "knowledge_layer" "get_routes"
                 (JRoutes {| explainer_routes := [] |}))
              (run {| sendMessage := true; registerMessageHandler := true;
                      deregisterMessageHandler := true |}
                 [Mount; ClickGetRoutes;
                  Inbound "knowledge_layer" "get_routes"
                    (JRoutes {| explainer_routes :=
                                  [ {| pattern := lit "/a"; related := [] |} ] |})]
                 initial_world)))
  = JRoutes {| explainer_routes := [] |}.
Proof.
  split; [reflexivity|]. split; [reflexivity|].
  pose proof (get_routes_replaces_wholesale
                {| sendMessage := true; registerMessageHandler := true;
                   deregisterMessageHandler := true |}
                [Mount; ClickGetRoutes;
                 Inbound "knowledge_layer" "get_routes"
                   (JRoutes {| explainer_routes :=
                                 [ {| pattern := lit "/a"; related := [] |} ] |})]
                (JRoutes {| explainer_routes := [] |})
                eq_refl eq_refl) as [_ H].
  exact (f_equal knowledgeLayerRoutes H).
Defined.

(** ** Teardown *)

(** C7, amended: when the registration capability was supplied at session
    start, unmounting ends the session and deregisters both keys, or, when
    the deregistration capability is missing, reports the diagnostic and
    ends the session all the same. When the registration capability was not
    supplied the first effect installed no cleanup: unmounting then makes no
    call and reports nothing. *)
Theorem teardown_after_registration (p : Props) (events : list Event) :
  mounted (run p events initial_world) = true ->
  mounted (step p Unmount (run p events initial_world)) = false /\
  effects (step p Unmount (run p events initial_world))
    = effects (run p events initial_world) ++
      (if registerMessageHandler p then
         if deregisterMessageHandler p
         then [DeregisterHandler "knowledge_layer" "get_routes";
               DeregisterHandler "knowledge_layer" "query_knowledge"]
         else [ConsoleError "deregisterMessageHandler is not provided" NoArg]
       else []) /\
  (if registerMessageHandler p
   then teardown_claim_as_stated p (run p events initial_world)
   else True) /\
  (if registerMessageHandler p && deregisterMessageHandler p
   then handlers (step p Unmount (run p events initial_world))
          !! key_get_routes = None /\
        handlers (step p Unmount (run p events initial_world))
          !! key_query_knowledge = None
   else True).
Proof.
  intros Hm. destruct (session_inv_run p events) as [Hc _].
  revert Hm Hc. generalize (run p events initial_world) as w. intros w Hm Hc.
  destruct w as [st m c h b n eff].
  unfold teardown_claim_as_stated, deregistrations, diagnostics,
    key_get_routes, key_query_knowledge.
  eval_ops. subst m. eval_ops. subst c.
  destruct (registerMessageHandler p), (deregisterMessageHandler p); eval_ops;
    rewrite ?omap_app, ?app_nil_r, <- ?app_assoc; repeat split; try done.
  - rewrite lookup_delete_ne by discriminate. apply lookup_delete_eq.
  - apply lookup_delete_eq.
Qed.

Lemma teardown_after_registration_witness :
  mounted (run {| sendMessage := true; registerMessageHandler := true;
                  deregisterMessageHandler := false |}
             [Mount; ClickGetRoutes] initial_world) = true /\
  teardown_claim_as_stated
    {| sendMessage := true; registerMessageHandler := true;
       deregisterMessageHandler := false |}
    (run {| sendMessage := true; registerMessageHandler := true;
            deregisterMessageHandler := false |}
       [Mount; ClickGetRoutes] initial_world).
Proof.
  split; [reflexivity|].
  exact (proj1 (proj2 (proj2
    (teardown_after_registration
       {| sendMessage := true; registerMessageHandler := true;
          deregisterMessageHandler := false |}
       [Mount; ClickGetRoutes] eq_refl)))).
Defined.

(** C7 as stated fails when neither the registration nor the
    deregistration capability is supplied: unmounting reports nothing. *)
Lemma teardown_claim_counterexample :
  ~ teardown_claim_as_stated
      {| sendMessage := true; registerMessageHandler := false;
         deregisterMessageHandler := false |}
      (run {| sendMessage := true; registerMessageHandler := false;
              deregisterMessageHandler := false |}
         [Mount] initial_world).
Proof. intros [_ H]. vm_compute in H. discriminate. Qed.

(** ** Clipboard fallback *)

Lemma filter_all {A : Type} (P : A -> Prop) `{forall x, Decision (P x)}
    (l : list A) :
  Forall P l -> filter P l = l.
Proof.
  induction 1 as [|x l Hx _ IH]; [done|].
  rewrite filter_cons, decide_True by done. by rewrite IH.
Qed.

(** Removing the new node from the body it was appended to gives the body
    back. *)
Lemma remove_appended (tag : String.string) (text : jsstring) (w : World) :
  filter (fun c => node_id c <> node_id (createElement tag w))
         (body w ++ [set_value text (createElement tag w)])
  = body w.
Proof.
  rewrite filter_app, filter_cons, decide_False, filter_nil, app_nil_r
    by (simpl; intros H; by apply H).
  apply filter_all, Forall_forall. intros c Hc; simpl.
  assert (node_id c <= max_list (node_id <$> body w))%nat.
  { apply max_list_elem_of_le. by apply list_elem_of_fmap_2. }
  lia.
Qed.

(** C8: in the fallback the text area appended to the document is removed
    in every execution, whether the copy command returns (true or false) or
    throws: the effects are append, select, copy, one console line, remove,
    in this order; afterwards the body is what it was before and holds no
    node with the text area's identity. *)
Theorem fallback_removes_textarea (dot : jsstring) (copy : ExecOutcome) (w : World) :
  effects (copy_fallback dot copy w)
    = effects w ++
      [AppendChild (node_id (createElement "textarea" w));
       SelectText (node_id (createElement "textarea" w));
       ExecCommand "copy";
       match copy with
       | ExecReturned _ => ConsoleLog "DOT graph copied to clipboard!" NoArg
       | ExecThrew err => ConsoleError "Failed to copy DOT graph:" (ArgError err)
       end;
       RemoveChild (node_id (createElement "textarea" w))] /\
  body (copy_fallback dot copy w) = body w /\
  (node_id (createElement "textarea" w)
     ∉ (node_id <$> body (copy_fallback dot copy w))) /\
  state (copy_fallback dot copy w) = state w.
Proof.
  assert (body (copy_fallback dot copy w) = body w) as Hb.
  { pose proof (remove_appended "textarea" dot w) as Hr.
    destruct w as [st m c h b n eff]. by destruct copy. }
  repeat split.
  - destruct w as [st m c h b n eff].
    destruct copy; eval_ops; by rewrite <- !app_assoc.
  - exact Hb.
  - rewrite Hb. intros Hin.
    apply max_list_elem_of_le in Hin. simpl in Hin. lia.
  - destruct w as [st m c h b n eff]. by destruct copy.
Qed.

(** With routes available and no clipboard API, the graph operation runs
    the fallback on the DOT text. *)
Lemma generate_uses_fallback (rs : RouteSet) (copy : ExecOutcome) (w : World) :
  knowledgeLayerRoutes (state w) = JRoutes rs ->
  generateRouteDotGraph (NoClipboardApi copy) w =
  copy_fallback (dot_of_routes rs) copy
    (emit (ConsoleLog "Explainer Graph Edges:" (ArgEdges (explainerGraphEdges rs)))
       (emit (ConsoleLog "Explainer Graph Nodes:" (ArgNodes (explainerGraphNodes rs)))
          w)).
Proof. intros H. unfold generateRouteDotGraph. by rewrite H. Qed.

(** With the clipboard API the DOT text is what is written. *)
Lemma generate_writes_dot (rs : RouteSet) (w : World) :
  knowledgeLayerRoutes (state w) = JRoutes rs ->
  effects (generateRouteDotGraph ClipboardApi w) =
  effects w ++
    [ConsoleLog "Explainer Graph Nodes:" (ArgNodes (explainerGraphNodes rs));
     ConsoleLog "Explainer Graph Edges:" (ArgEdges (explainerGraphEdges rs));
     ClipboardWriteText (dot_of_routes rs)].
Proof.
  intros H. unfold generateRouteDotGraph. rewrite H; simpl.
  by rewrite <- !app_assoc.
Qed.

(** A text area left over by someone else is not touched either. *)
Example fallback_example :
  body (copy_fallback (lit "digraph") (ExecThrew (lit "NotAllowedError"))
          (with_body [ {| node_id := 7; tagName := "div"; value := [] |} ]
             initial_world))
  = [ {| node_id := 7; tagName := "div"; value := [] |} ].
Proof. reflexivity. Qed.

(** ** The query text *)

(** C10: submitting a query leaves the stored text as it is: the trimmed
    text exists only in the message, and the input keeps showing the text
    as typed. Of all events of a session only a keystroke in the input
    changes the stored text. *)
Theorem input_changed_only_by_keystroke (p : Props) (e : Event) (w : World) :
  mounted w = true ->
  knowledgeQueryInput (state (step p e w))
    = match e with
      | Keystroke v => v
      | _ => knowledgeQueryInput (state w)
      end /\
  state (queryKnowledge p w) = state w /\
  input_value (render (queryKnowledge p w)) = knowledgeQueryInput (state w) /\
  messages (queryKnowledge p w)
    = messages w ++
      (if sendMessage p && truthy_string (trim (knowledgeQueryInput (state w)))
       then [("knowledge_layer"%string, "query_knowledge"%string,
              Some (trim (knowledgeQueryInput (state w))))]
       else []).
Proof.
  intros Hm. repeat split.
  - destruct w as [st m c h b n eff]. eval_ops. subst m.
    destruct e; split_tests.
  - rewrite queryKnowledge_cases. destruct w; split_tests.
  - rewrite queryKnowledge_cases. destruct w; split_tests.
  - apply queryKnowledge_messages.
Qed.

Lemma input_changed_only_by_keystroke_witness :
  mounted (run {| sendMessage := true; registerMessageHandler := true;
                  deregisterMessageHandler := true |}
             [Mount; Keystroke (lit "  /docs/ue_1 ")] initial_world) = true /\
  knowledgeQueryInput
    (state (step {| sendMessage := true; registerMessageHandler := true;
                    deregisterMessageHandler := true |}
              ClickQuery
              (run {| sendMessage := true; registerMessageHandler := true;
                      deregisterMessageHandler := true |}
                 [Mount; Keystroke (lit "  /docs/ue_1 ")] initial_world)))
  = lit "  /docs/ue_1 ".
Proof.
  split; [reflexivity|].
  exact (proj1 (input_changed_only_by_keystroke
                  {| sendMessage := true; registerMessageHandler := true;
                     deregisterMessageHandler := true |}
                  ClickQuery
                  (run {| sendMessage := true; registerMessageHandler := true;
                          deregisterMessageHandler := true |}
                     [Mount; Keystroke (lit "  /docs/ue_1 ")] initial_world)
                  eq_refl)).
Defined.

(** The message carries the trimmed text while the input keeps the spaces. *)
Example submit_keeps_untrimmed_text :
  messages (run {| sendMessage := true; registerMessageHandler := true;
                   deregisterMessageHandler := true |}
              [Mount; Keystroke (lit "  /docs/ue_1 "); ClickQuery] initial_world)
  = [("knowledge_layer"%string, "query_knowledge"%string, Some (lit "/docs/ue_1"))] /\
  input_value
    (render (run {| sendMessage := true; registerMessageHandler := true;
                    deregisterMessageHandler := true |}
               [Mount; Keystroke (lit "  /docs/ue_1 "); ClickQuery] initial_world))
  = lit "  /docs/ue_1 ".
Proof. split; reflexivity. Qed.

(** * Further properties of the component *)

(** ** The graph *)

(** X1. Lines 54-64: every edge starts at a declared node, because its source is
    the pattern of the route that was pushed as a node just before. A target
    may be a pattern that is no node. *)
Theorem edge_sources_are_nodes (rs : RouteSet) (e : Edge) :
  e ∈ explainerGraphEdges rs -> source e ∈ explainerGraphNodes rs.
Proof.
  rewrite nodes_are_patterns, edges_are_related.
  rewrite !list_elem_of_In, in_flat_map.
  intros (r & Hr & He). unfold edges_of in He.
  apply in_map_iff in He as (rel & <- & _). simpl.
  by apply in_map.
Qed.

Lemma edge_sources_are_nodes_witness :
  {| source := lit "/a"; target := lit "/b"; label := lit "depends_on" |}
    ∈ explainerGraphEdges
        {| explainer_routes :=
             [ {| pattern := lit "/a";
                  related := [ {| rel_pattern := lit "/b";
                                  relationship := lit "depends_on" |} ] |} ] |} /\
  lit "/a"
    ∈ explainerGraphNodes
        {| explainer_routes :=
             [ {| pattern := lit "/a";
                  related := [ {| rel_pattern := lit "/b";
                                  relationship := lit "depends_on" |} ] |} ] |}.
Proof.
  assert ({| source := lit "/a"; target := lit "/b"; label := lit "depends_on" |}
            ∈ explainerGraphEdges
                {| explainer_routes :=
                     [ {| pattern := lit "/a";
                          related := [ {| rel_pattern := lit "/b";
                                          relationship := lit "depends_on" |} ] |} ] |})
    as H by (vm_compute; apply list_elem_of_here).
  split; [exact H|].
  exact (edge_sources_are_nodes _ _ H).
Defined.

(** A target that is not a node: the graph of one route /a related to /b
    has the edge to /b and no node /b. *)
Example edge_target_need_not_be_node :
  explainerGraphNodes
    {| explainer_routes :=
         [ {| pattern := lit "/a";
              related := [ {| rel_pattern := lit "/b";
                              relationship := lit "depends_on" |} ] |} ] |}
  = [lit "/a"] /\
  map target
    (explainerGraphEdges
       {| explainer_routes :=
            [ {| pattern := lit "/a";
                 related := [ {| rel_pattern := lit "/b";
                                 relationship := lit "depends_on" |} ] |} ] |})
  = [lit "/b"].
Proof. split; reflexivity. Qed.

(** X2. Lines 51-79: the graph and its text are built route by route. The graph
    of two route lists put one after the other is the two graphs put one
    after the other, and so are the node lines and the edge lines of the
    text. *)
Theorem build_graph_app (routes1 routes2 : list Route) :
  explainerGraphNodes {| explainer_routes := routes1 ++ routes2 |}
    = explainerGraphNodes {| explainer_routes := routes1 |} ++
      explainerGraphNodes {| explainer_routes := routes2 |} /\
  explainerGraphEdges {| explainer_routes := routes1 ++ routes2 |}
    = explainerGraphEdges {| explainer_routes := routes1 |} ++
      explainerGraphEdges {| explainer_routes := routes2 |} /\
  dot_of_routes {| explainer_routes := routes1 ++ routes2 |}
    = lit "digraph KnowledgeRoutes {" ++ nl ++
      concat (map node_line (map pattern routes1)) ++
      concat (map node_line (map pattern routes2)) ++
      concat (map edge_line (flat_map edges_of routes1)) ++
      concat (map edge_line (flat_map edges_of routes2)) ++
      lit "}" ++ nl.
Proof.
  unfold dot_of_routes. rewrite dot_of_graph_spec. unfold serialize_spec.
  rewrite !nodes_are_patterns, !edges_are_related. simpl.
  rewrite !map_app, flat_map_app, !map_app, !concat_app.
  repeat split. by rewrite <- !app_assoc.
Qed.

Lemma newlines_node_line (n : jsstring) :
  ~ In 10%N n -> count_occ N.eq_dec (node_line n) 10%N = 1.
Proof.
  intros H. apply (count_occ_not_In N.eq_dec) in H.
  unfold node_line. rewrite !count_occ_app, H. reflexivity.
Qed.

Lemma newlines_edge_line (e : Edge) :
  ~ In 10%N (source e) /\ ~ In 10%N (target e) /\ ~ In 10%N (label e) ->
  count_occ N.eq_dec (edge_line e) 10%N = 1.
Proof.
  intros (Hs & Ht & Hl).
  apply (count_occ_not_In N.eq_dec) in Hs, Ht, Hl.
  unfold edge_line. rewrite !count_occ_app, Hs, Ht, Hl. reflexivity.
Qed.

Lemma newlines_concat {A : Type} (f : A -> jsstring) (P : A -> Prop)
    (l : list A) :
  (forall x, P x -> count_occ N.eq_dec (f x) 10%N = 1) ->
  Forall P l ->
  count_occ N.eq_dec (concat (map f l)) 10%N = length l.
Proof.
  intros Hf. induction 1 as [|x l Hx _ IH]; [done|].
  change (concat (map f (x :: l))) with (f x ++ concat (map f l)).
  rewrite count_occ_app, IH, (Hf x Hx). reflexivity.
Qed.

(** X3. Lines 70-79: when no pattern and no relationship holds a newline, the
    text has exactly one line for the header, one per route, one per related
    entry and one for the closing brace. *)
Theorem dot_text_line_count (rs : RouteSet) :
  Forall (fun n => ~ In 10%N n) (explainerGraphNodes rs) ->
  Forall (fun e => ~ In 10%N (source e) /\ ~ In 10%N (target e) /\
                   ~ In 10%N (label e))
         (explainerGraphEdges rs) ->
  count_occ N.eq_dec (dot_of_routes rs) 10%N
  = 2 + length (explainer_routes rs)
      + sum_list (map (fun r => length (related r)) (explainer_routes rs)).
Proof.
  intros Hn He. unfold dot_of_routes. rewrite dot_of_graph_spec.
  unfold serialize_spec. rewrite !count_occ_app.
  rewrite (newlines_concat node_line _ _ newlines_node_line Hn).
  rewrite (newlines_concat edge_line _ _ newlines_edge_line He).
  rewrite nodes_are_patterns, edges_are_related, length_map,
    length_flat_map_edges.
  change (count_occ N.eq_dec (lit "digraph KnowledgeRoutes {") 10%N) with 0.
  change (count_occ N.eq_dec nl 10%N) with 1.
  change (count_occ N.eq_dec (lit "}") 10%N) with 0.
  lia.
Qed.

Lemma dot_text_line_count_witness :
  Forall (fun n => ~ In 10%N n)
    (explainerGraphNodes
       {| explainer_routes :=
            [ {| pattern := lit "/a";
                 related := [ {| rel_pattern := lit "/b";
                                 relationship := lit "depends_on" |} ] |} ] |}) /\
  Forall (fun e => ~ In 10%N (source e) /\ ~ In 10%N (target e) /\
                   ~ In 10%N (label e))
    (explainerGraphEdges
       {| explainer_routes :=
            [ {| pattern := lit "/a";
                 related := [ {| rel_pattern := lit "/b";
                                 relationship := lit "depends_on" |} ] |} ] |}) /\
  count_occ N.eq_dec
    (dot_of_routes
       {| explainer_routes :=
            [ {| pattern := lit "/a";
                 related := [ {| rel_pattern := lit "/b";
                                 relationship := lit "depends_on" |} ] |} ] |})
    10%N
  = 4.
Proof.
  assert (Forall (fun n => ~ In 10%N n)
            (explainerGraphNodes
               {| explainer_routes :=
                    [ {| pattern := lit "/a";
                         related := [ {| rel_pattern := lit "/b";
                                         relationship := lit "depends_on" |} ] |} ] |}))
    as Hn by (vm_compute; repeat constructor; intuition discriminate).
  assert (Forall (fun e => ~ In 10%N (source e) /\ ~ In 10%N (target e) /\
                           ~ In 10%N (label e))
            (explainerGraphEdges
               {| explainer_routes :=
                    [ {| pattern := lit "/a";
                         related := [ {| rel_pattern := lit "/b";
                                         relationship := lit "depends_on" |} ] |} ] |}))
    as He by (vm_compute; repeat constructor; intuition discriminate).
  split; [exact Hn|]. split; [exact He|].
  exact (dot_text_line_count _ Hn He).
Defined.

(** ** The query text and the messages *)

Lemma trimStart_snoc (l : jsstring) (c : N) :
  isWhiteSpace c = false -> trimStart (l ++ [c]) = trimStart l ++ [c].
Proof.
  intros Hc. induction l as [|d l IH]; simpl; [by rewrite Hc|].
  by destruct (isWhiteSpace d).
Qed.

Lemma trimStart_fixed (l : jsstring) :
  (forall c, head l = Some c -> isWhiteSpace c = false) -> trimStart l = l.
Proof.
  destruct l as [|c l]; [done|]. intros H. simpl. by rewrite (H c).
Qed.

Lemma trimStart_idem (l : jsstring) : trimStart (trimStart l) = trimStart l.
Proof.
  apply trimStart_fixed. intros c Hc.
  destruct (trimStart l) as [|d t] eqn:Hl; [done|].
  injection Hc as ->. by apply trimStart_head in Hl.
Qed.

Lemma last_rev_head {A : Type} (l : list A) : last (rev l) = head l.
Proof. destruct l as [|x l]; [done|]. simpl. apply last_snoc. Qed.

Lemma trim_head (s : jsstring) (c : N) :
  head (trim s) = Some c -> isWhiteSpace c = false.
Proof.
  unfold trim, trimEnd.
  destruct (trimStart s) as [|d t] eqn:Hs; [done|].
  apply trimStart_head in Hs.
  simpl rev. rewrite (trimStart_snoc _ _ Hs), rev_app_distr. simpl.
  by intros [= <-].
Qed.

Lemma trim_last (s : jsstring) (c : N) :
  last (trim s) = Some c -> isWhiteSpace c = false.
Proof.
  unfold trim, trimEnd. rewrite last_rev_head.
  destruct (trimStart (rev (trimStart s))) as [|d t] eqn:Hs; [done|].
  apply trimStart_head in Hs. by intros [= <-].
Qed.

Lemma trim_idem (s : jsstring) : trim (trim s) = trim s.
Proof.
  assert (trimStart (trim s) = trim s) as Hfix
    by (apply trimStart_fixed, trim_head).
  unfold trim at 1. rewrite Hfix.
  unfold trim, trimEnd. by rewrite rev_involutive, trimStart_idem.
Qed.

(** What one step adds to the messages: only the two buttons send, only
    while the component is mounted and [sendMessage] is supplied, and the
    query button only for a text that is not blank. *)
Lemma messages_step (p : Props) (e : Event) (w : World) :
  messages (step p e w) =
  messages w ++
    match e with
    | ClickGetRoutes =>
        if mounted w && sendMessage p
        then [("knowledge_layer"%string, "get_routes"%string, None)] else []
    | ClickQuery =>
        if mounted w && sendMessage p &&
           truthy_string (trim (knowledgeQueryInput (state w)))
        then [("knowledge_layer"%string, "query_knowledge"%string,
               Some (trim (knowledgeQueryInput (state w))))]
        else []
    | _ => []
    end.
Proof.
  unfold messages. destruct w as [st m c h b n eff].
  destruct e; split_tests; rewrite ?omap_app, ?app_nil_r; try done.
Qed.

(** X4. Lines 37-43 and 107-121: over a whole session the component sends
    nothing but get_routes requests without payload and query_knowledge
    requests whose payload is not empty, has no white space at either end
    and is its own trim. *)
Theorem session_message_shapes (p : Props) (events : list Event) :
  Forall (fun m =>
            m = ("knowledge_layer"%string, "get_routes"%string, None) \/
            exists s, m = ("knowledge_layer"%string, "query_knowledge"%string, Some s) /\
                      s <> [] /\ trim s = s /\
                      (forall c, head s = Some c -> isWhiteSpace c = false) /\
                      (forall c, last s = Some c -> isWhiteSpace c = false))
         (messages (run p events initial_world)).
Proof.
  apply (run_invariant
           (fun w => Forall (fun m =>
              m = ("knowledge_layer"%string, "get_routes"%string, None) \/
              exists s, m = ("knowledge_layer"%string, "query_knowledge"%string, Some s) /\
                        s <> [] /\ trim s = s /\
                        (forall c, head s = Some c -> isWhiteSpace c = false) /\
                        (forall c, last s = Some c -> isWhiteSpace c = false))
              (messages w)) p); [|by constructor].
  intros e w Hw. rewrite messages_step. apply Forall_app; split; [exact Hw|].
  destruct e; try by constructor.
  - destruct (mounted w && sendMessage p); [|by constructor].
    constructor; [by left|constructor].
  - destruct (mounted w && sendMessage p); [|by constructor]. simpl.
    destruct (trim (knowledgeQueryInput (state w))) as [|c t] eqn:Ht;
      [by constructor|].
    simpl. constructor; [|constructor]. right. exists (c :: t). rewrite <- Ht.
    repeat split.
    + by rewrite Ht.
    + apply trim_idem.
    + apply trim_head.
    + apply trim_last.
Qed.

(** X5. Lines 38-41 and 108-111: a session without [sendMessage] never sends
    anything, whatever the operator does and whatever arrives. *)
Theorem no_sendMessage_no_messages (p : Props) (events : list Event) :
  sendMessage p = false ->
  messages (run p events initial_world) = [].
Proof.
  intros Hp.
  apply (run_invariant (fun w => messages w = []) p); [|done].
  intros e w Hw. rewrite messages_step, Hw, Hp.
  destruct e; try done; by rewrite ?andb_false_r.
Qed.

Lemma no_sendMessage_no_messages_witness :
  sendMessage {| sendMessage := false; registerMessageHandler := true;
                 deregisterMessageHandler := true |} = false /\
  messages (run {| sendMessage := false; registerMessageHandler := true;
                   deregisterMessageHandler := true |}
              [Mount; ClickGetRoutes; Keystroke (lit "/docs"); ClickQuery]
              initial_world) = [].
Proof.
  split; [reflexivity|].
  apply (no_sendMessage_no_messages
           {| sendMessage := false; registerMessageHandler := true;
              deregisterMessageHandler := true |}
           [Mount; ClickGetRoutes; Keystroke (lit "/docs"); ClickQuery]).
  reflexivity.
Defined.

(** X6. Lines 112-120: with [sendMessage] supplied, submitting sends nothing
    exactly when every code unit of the text is white space (the empty text
    included), and then reports the input error. *)
Theorem query_rejected_iff_blank (p : Props) (w : World) :
  sendMessage p = true ->
  (messages (queryKnowledge p w) = messages w <->
   forallb isWhiteSpace (knowledgeQueryInput (state w)) = true) /\
  (forallb isWhiteSpace (knowledgeQueryInput (state w)) = true ->
   diagnostics (queryKnowledge p w)
   = diagnostics w ++ ["Knowledge query input is empty"%string]).
Proof.
  intros Hp. rewrite <- trim_nil_iff. split.
  - rewrite queryKnowledge_messages, Hp. simpl.
    destruct (trim (knowledgeQueryInput (state w))) as [|c t]; simpl.
    + by rewrite app_nil_r.
    + split; [|done]. intros H.
      rewrite <- (app_nil_r (messages w)) in H at 2.
      apply app_inv_head in H. discriminate.
  - intros Ht. rewrite queryKnowledge_cases, Hp, Ht.
    by rewrite diagnostics_emit.
Qed.

Lemma query_rejected_iff_blank_witness :
  sendMessage {| sendMessage := true; registerMessageHandler := true;
                 deregisterMessageHandler := true |} = true /\
  diagnostics
    (queryKnowledge
       {| sendMessage := true; registerMessageHandler := true;
          deregisterMessageHandler := true |}
       (run {| sendMessage := true; registerMessageHandler := true;
               deregisterMessageHandler := true |}
          [Mount; Keystroke [32; 9; 160]%N] initial_world))
  = diagnostics
      (run {| sendMessage := true; registerMessageHandler := true;
              deregisterMessageHandler := true |}
         [Mount; Keystroke [32; 9; 160]%N] initial_world)
    ++ ["Knowledge query input is empty"%string].
Proof.
  split; [reflexivity|].
  apply (query_rejected_iff_blank
           {| sendMessage := true; registerMessageHandler := true;
              deregisterMessageHandler := true |}
           (run {| sendMessage := true; registerMessageHandler := true;
                   deregisterMessageHandler := true |}
              [Mount; Keystroke [32; 9; 160]%N] initial_world)
           eq_refl).
  reflexivity.
Defined.

(** ** Responses and the registry *)




(** X9. Lines 17-25: while a session that has the registration capability is
    mounted, the registry holds its two callbacks, each under its own key,
    and nothing under any other key. *)
Theorem registry_while_mounted (p : Props) (events : list Event) :
  registerMessageHandler p = true ->
  mounted (run p events initial_world) = true ->
  handlers (run p events initial_world) !! key_get_routes = Some OnGetRoutes /\
  handlers (run p events initial_world) !! key_query_knowledge
    = Some OnQueryKnowledge /\
  (forall k, k <> key_get_routes -> k <> key_query_knowledge ->
             handlers (run p events initial_world) !! k = None).
Proof.
  intros Hp Hm.
  destruct (session_inv_run p events) as [Hc Hh].
  rewrite Hm, Hp in Hc. destruct (Hh Hc) as [Hg Hq].
  repeat split; try done.
  intros k Hk1 Hk2.
  destruct (handlers (run p events initial_world) !! k) as [cb|] eqn:Hk; [|done].
  destruct (handlers_own_run p events k cb Hk) as [[-> _]|[-> _]]; done.
Qed.

Lemma registry_while_mounted_witness :
  registerMessageHandler
    {| sendMessage := true; registerMessageHandler := true;
       deregisterMessageHandler := true |} = true /\
  mounted
    (run {| sendMessage := true; registerMessageHandler := true;
            deregisterMessageHandler := true |}
       [Mount; Unmount; Mount; ClickGetRoutes] initial_world) = true /\
  handlers
    (run {| sendMessage := true; registerMessageHandler := true;
            deregisterMessageHandler := true |}
       [Mount; Unmount; Mount; ClickGetRoutes] initial_world)
    !! key_get_routes = Some OnGetRoutes.
Proof.
  split; [reflexivity|]. split; [reflexivity|].
  exact (proj1 (registry_while_mounted
                  {| sendMessage := true; registerMessageHandler := true;
                     deregisterMessageHandler := true |}
                  [Mount; Unmount; Mount; ClickGetRoutes] eq_refl eq_refl)).
Defined.

Lemma handlers_empty_step (p : Props) (e : Event) (w : World) :
  registerMessageHandler p = false ->
  handlers w = ∅ -> handlers (step p e w) = ∅.
Proof.
  intros Hp Hh. destruct w as [st m c h b n eff]. eval_ops. subst h.
  destruct e; eval_ops; rewrite ?Hp, ?lookup_empty; split_tests.
  all: by rewrite !delete_empty.
Qed.

Lemma unmount_clears_registry (p : Props) (events : list Event) (k : String.string * String.string) :
  deregisterMessageHandler p = true ->
  mounted (run p events initial_world) = true ->
  handlers (step p Unmount (run p events initial_world)) !! k = None.
Proof.
  intros Hd Hm.
  destruct (registerMessageHandler p) eqn:Hp.
  - destruct (session_inv_run p events) as [Hc _].
    pose proof (handlers_own_run p events) as Hown.
    revert Hm Hc Hown. generalize (run p events initial_world) as w.
    intros w Hm Hc Hown. unfold handlers_own in Hown.
    destruct w as [st m c h b n eff]. eval_ops. subst m. eval_ops. subst c.
    rewrite Hp, Hd. eval_ops.
    destruct (decide (k = ("knowledge_layer"%string, "query_knowledge"%string)))
      as [->|Hk2]; [apply lookup_delete_eq|].
    rewrite lookup_delete_ne by done.
    destruct (decide (k = ("knowledge_layer"%string, "get_routes"%string)))
      as [->|Hk1]; [apply lookup_delete_eq|].
    rewrite lookup_delete_ne by done.
    destruct (h !! k) as [cb|] eqn:Hk; [|done].
    destruct (Hown k cb Hk) as [[-> _]|[-> _]]; done.
  - assert (handlers (step p Unmount (run p events initial_world)) = ∅) as ->.
    { apply handlers_empty_step; [done|].
      apply (run_invariant (fun w => handlers w = ∅) p); [|done].
      intros e w. by apply handlers_empty_step. }
    apply lookup_empty.
Qed.

(** X10. Lines 27-31: after the teardown of a session that has the
    deregistration capability, a message arriving for any key changes
    nothing: no callback runs, no state moves, nothing is logged. *)
Theorem inbound_after_teardown_dropped (p : Props) (events : list Event)
    (namespace action : String.string) (response : JsValue) :
  deregisterMessageHandler p = true ->
  mounted (run p events initial_world) = true ->
  step p (Inbound namespace action response)
       (step p Unmount (run p events initial_world))
  = step p Unmount (run p events initial_world).
Proof.
  intros Hd Hm.
  pose proof (unmount_clears_registry p events (namespace, action) Hd Hm) as Hk.
  unfold step at 1. unfold deliver. by rewrite Hk.
Qed.

Lemma inbound_after_teardown_dropped_witness :
  deregisterMessageHandler
    {| sendMessage := true; registerMessageHandler := true;
       deregisterMessageHandler := true |} = true /\
  mounted
    (run {| sendMessage := true; registerMessageHandler := true;
            deregisterMessageHandler := true |}
       [Mount; ClickGetRoutes] initial_world) = true /\
  step {| sendMessage := true; registerMessageHandler := true;
          deregisterMessageHandler := true |}
    (Inbound "knowledge_layer" "get_routes" (JRoutes {| explainer_routes := [] |}))
    (step {| sendMessage := true; registerMessageHandler := true;
             deregisterMessageHandler := true |}
       Unmount
       (run {| sendMessage := true; registerMessageHandler := true;
               deregisterMessageHandler := true |}
          [Mount; ClickGetRoutes] initial_world))
  = step {| sendMessage := true; registerMessageHandler := true;
            deregisterMessageHandler := true |}
      Unmount
      (run {| sendMessage := true; registerMessageHandler := true;
              deregisterMessageHandler := true |}
         [Mount; ClickGetRoutes] initial_world).
Proof.
  split; [reflexivity|]. split; [reflexivity|].
  exact (inbound_after_teardown_dropped
           {| sendMessage := true; registerMessageHandler := true;
              deregisterMessageHandler := true |}
           [Mount; ClickGetRoutes]
           "knowledge_layer" "get_routes"
           (JRoutes {| explainer_routes := [] |}) eq_refl eq_refl).
Defined.

(** X11. Lines 28-33: without the deregistration capability the teardown of a
    registered session leaves the registry as it is, so both callbacks
    outlive the session, and a get_routes message that arrives afterwards
    still runs the callback, which logs it. *)
Theorem callbacks_outlive_session (p : Props) (events : list Event)
    (response : JsValue) :
  registerMessageHandler p = true ->
  deregisterMessageHandler p = false ->
  mounted (run p events initial_world) = true ->
  handlers (step p Unmount (run p events initial_world))
    = handlers (run p events initial_world) /\
  handlers (step p Unmount (run p events initial_world)) !! key_get_routes
    = Some OnGetRoutes /\
  handlers (step p Unmount (run p events initial_world)) !! key_query_knowledge
    = Some OnQueryKnowledge /\
  effects (step p (Inbound "knowledge_layer" "get_routes" response)
                (step p Unmount (run p events initial_world)))
    = effects (step p Unmount (run p events initial_world)) ++
      [ConsoleLog "Received knowledge layer routes:" (ArgValue response)].
Proof.
  intros Hp Hd Hm.
  destruct (session_inv_run p events) as [Hc Hh].
  rewrite Hm, Hp in Hc. destruct (Hh Hc) as [Hg Hq].
  revert Hm Hc Hg Hq. generalize (run p events initial_world) as w.
  intros w Hm Hc Hg Hq. unfold key_get_routes, key_query_knowledge in *.
  destruct w as [st m c h b n eff]. eval_ops. subst m c. rewrite Hd. eval_ops.
  rewrite Hg. by eval_ops.
Qed.

Lemma callbacks_outlive_session_witness :
  registerMessageHandler
    {| sendMessage := true; registerMessageHandler := true;
       deregisterMessageHandler := false |} = true /\
  deregisterMessageHandler
    {| sendMessage := true; registerMessageHandler := true;
       deregisterMessageHandler := false |} = false /\
  mounted
    (run {| sendMessage := true; registerMessageHandler := true;
            deregisterMessageHandler := false |}
       [Mount] initial_world) = true /\
  handlers
    (step {| sendMessage := true; registerMessageHandler := true;
             deregisterMessageHandler := false |}
       Unmount
       (run {| sendMessage := true; registerMessageHandler := true;
               deregisterMessageHandler := false |}
          [Mount] initial_world))
    !! key_get_routes = Some OnGetRoutes.
Proof.
  split; [reflexivity|]. split; [reflexivity|]. split; [reflexivity|].
  exact (proj1 (proj2 (callbacks_outlive_session
                  {| sendMessage := true; registerMessageHandler := true;
                     deregisterMessageHandler := false |}
                  [Mount] JNull eq_refl eq_refl eq_refl))).
Defined.

(** ** Graph generation and the document *)

Lemma copy_fallback_body (dot : jsstring) (copy : ExecOutcome) (w : World) :
  body (copy_fallback dot copy w) = body w.
Proof.
  pose proof (remove_appended "textarea" dot w) as Hr.
  destruct w as [st m c h b n eff]. by destruct copy.
Qed.

Lemma generate_body (b : Browser) (w : World) :
  body (generateRouteDotGraph b w) = body w.
Proof.
  unfold generateRouteDotGraph.
  destruct (negb (truthy (knowledgeLayerRoutes (state w)))); [done|].
  destruct (knowledgeLayerRoutes (state w)); try done.
  destruct b; [done|]. unfold copy_to_clipboard.
  by rewrite copy_fallback_body.
Qed.

(** X12. Lines 45-105: graph generation is an export only. Whatever the routes
    are and whatever the browser does, it leaves the three state cells, the
    registry and the document body as they were and sends no message. *)
Theorem generate_frame (b : Browser) (w : World) :
  state (generateRouteDotGraph b w) = state w /\
  handlers (generateRouteDotGraph b w) = handlers w /\
  body (generateRouteDotGraph b w) = body w /\
  mounted (generateRouteDotGraph b w) = mounted w /\
  messages (generateRouteDotGraph b w) = messages w.
Proof.
  split; [|split; [|split; [apply generate_body|split]]].
  - destruct w as [st m c h bd n eff]; split_tests.
  - destruct w as [st m c h bd n eff]; split_tests.
  - destruct w as [st m c h bd n eff]; split_tests.
  - unfold messages. destruct w as [st m c h bd n eff]; split_tests;
      rewrite !omap_app; cbn; by rewrite ?app_nil_r.
Qed.

Lemma body_step (p : Props) (e : Event) (w : World) :
  body (step p e w) = body w.
Proof.
  destruct e; try (destruct w as [st m c h bd n eff]; split_tests; fail).
  unfold step. destruct (mounted w); [apply generate_body|done].
Qed.

(** X13. Lines 93-103: over a whole session, with any number of exports through
    the fallback and whatever the copy command does each time, the document
    body ends as it started: no text area is ever left behind. *)
Theorem session_leaves_document (p : Props) (events : list Event) (w : World) :
  body (run p events w) = body w.
Proof.
  revert w. induction events as [|e events IH]; intros w; [done|].
  rewrite run_cons, IH. apply body_step.
Qed.

(** X14. Lines 46-49 and 139: the second button is disabled exactly in the
    states in which the operation would only report that the routes are not
    available. *)
Theorem generate_disabled_iff_unavailable (b : Browser) (w : World) :
  generate_disabled (render w) = true <->
  generateRouteDotGraph b w
  = emit (ConsoleError "Knowledge Layer Routes are not available" NoArg) w.
Proof.
  unfold render, generateRouteDotGraph; simpl.
  destruct (negb (truthy (knowledgeLayerRoutes (state w)))) eqn:Ht; [done|].
  split; [done|]. intros H. exfalso.
  apply (f_equal effects) in H.
  destruct w as [st m c h bd n eff].
  destruct st as [qi [|s|rs] qr]; simpl in Ht; try done.
  - eval_ops. apply app_inv_head in H. discriminate.
  - destruct b as [|copy]; [|destruct copy]; eval_ops;
      rewrite <- !app_assoc in H; apply app_inv_head in H; discriminate.
Qed.

(** X15. Lines 17-20 and 45-84: the graph is computed from the routes of the
    latest get_routes response. In a registered, mounted session, a
    delivery of routes followed by the export with the clipboard API logs
    the delivery, logs nodes and edges, and writes the DOT text of exactly
    those routes, whatever was stored before. *)
Theorem generate_uses_latest_routes (p : Props) (events : list Event)
    (rs : RouteSet) :
  registerMessageHandler p = true ->
  mounted (run p events initial_world) = true ->
  effects (run p [Inbound "knowledge_layer" "get_routes" (JRoutes rs);
                  InvokeGenerate ClipboardApi]
               (run p events initial_world))
  = effects (run p events initial_world) ++
    [ConsoleLog "Received knowledge layer routes:" (ArgValue (JRoutes rs));
     ConsoleLog "Explainer Graph Nodes:" (ArgNodes (explainerGraphNodes rs));
     ConsoleLog "Explainer Graph Edges:" (ArgEdges (explainerGraphEdges rs));
     ClipboardWriteText (dot_of_routes rs)].
Proof.
  intros Hp Hm.
  destruct (session_inv_run p events) as [Hc Hh].
  rewrite Hm, Hp in Hc. destruct (Hh Hc) as [Hg _].
  change (run p [Inbound "knowledge_layer" "get_routes" (JRoutes rs);
                 InvokeGenerate ClipboardApi]
              (run p events initial_world))
    with (step p (InvokeGenerate ClipboardApi)
            (deliver "knowledge_layer" "get_routes" (JRoutes rs)
               (run p events initial_world))).
  rewrite (deliver_get_routes _ _ Hm Hg). clear Hc Hh Hg.
  revert Hm. generalize (run p events initial_world) as w. intros w Hm.
  destruct w as [st m c h b n eff]. eval_ops. subst m. eval_ops.
  by rewrite <- !app_assoc.
Qed.

Lemma generate_uses_latest_routes_witness :
  registerMessageHandler
    {| sendMessage := true; registerMessageHandler := true;
       deregisterMessageHandler := true |} = true /\
  mounted
    (run {| sendMessage := true; registerMessageHandler := true;
       deregisterMessageHandler := true |}
       [Mount;
        Inbound "knowledge_layer" "get_routes"
          (JRoutes {| explainer_routes :=
                        [ {| pattern := lit "/old"; related := [] |} ] |})]
       initial_world) = true /\
  effects
    (run {| sendMessage := true; registerMessageHandler := true;
       deregisterMessageHandler := true |}
       [Inbound "knowledge_layer" "get_routes"
          (JRoutes {| explainer_routes := [] |});
        InvokeGenerate ClipboardApi]
       (run {| sendMessage := true; registerMessageHandler := true;
       deregisterMessageHandler := true |}
          [Mount;
        Inbound "knowledge_layer" "get_routes"
          (JRoutes {| explainer_routes :=
                        [ {| pattern := lit "/old"; related := [] |} ] |})]
          initial_world))
  = effects
      (run {| sendMessage := true; registerMessageHandler := true;
       deregisterMessageHandler := true |}
         [Mount;
        Inbound "knowledge_layer" "get_routes"
          (JRoutes {| explainer_routes :=
                        [ {| pattern := lit "/old"; related := [] |} ] |})]
         initial_world) ++
    [ConsoleLog "Received knowledge layer routes:"
       (ArgValue (JRoutes {| explainer_routes := [] |}));
     ConsoleLog "Explainer Graph Nodes:"
       (ArgNodes (explainerGraphNodes {| explainer_routes := [] |}));
     ConsoleLog "Explainer Graph Edges:"
       (ArgEdges (explainerGraphEdges {| explainer_routes := [] |}));
     ClipboardWriteText (dot_of_routes {| explainer_routes := [] |})].
Proof.
  split; [reflexivity|]. split; [reflexivity|].
  exact (generate_uses_latest_routes
           {| sendMessage := true; registerMessageHandler := true;
       deregisterMessageHandler := true |}
           [Mount;
        Inbound "knowledge_layer" "get_routes"
          (JRoutes {| explainer_routes :=
                        [ {| pattern := lit "/old"; related := [] |} ] |})]
           {| explainer_routes := [] |} eq_refl eq_refl).
Defined.

(** X7. Lines 107-121 and 157: the query that is sent is the trim of the text
    of the latest keystroke. In a mounted session with [sendMessage], typing
    a text and pressing the query button sends exactly one message with the
    trimmed text when the text is not blank and none when it is. *)
Theorem query_sends_latest_text (p : Props) (w : World) (v : jsstring) :
  mounted w = true ->
  sendMessage p = true ->
  messages (run p [Keystroke v; ClickQuery] w)
  = messages w ++
    (if truthy_string (trim v)
     then [("knowledge_layer"%string, "query_knowledge"%string, Some (trim v))]
     else []).
Proof.
  intros Hm Hp.
  change (run p [Keystroke v; ClickQuery] w)
    with (step p ClickQuery (step p (Keystroke v) w)).
  rewrite !messages_step, app_nil_r.
  destruct w as [st m c h b n eff]. eval_ops. subst m. eval_ops.
  by rewrite Hp.
Qed.

Lemma query_sends_latest_text_witness :
  mounted
    (run {| sendMessage := true; registerMessageHandler := true;
            deregisterMessageHandler := true |}
       [Mount; Keystroke (lit "first")] initial_world) = true /\
  sendMessage {| sendMessage := true; registerMessageHandler := true;
                 deregisterMessageHandler := true |} = true /\
  messages
    (run {| sendMessage := true; registerMessageHandler := true;
            deregisterMessageHandler := true |}
       [Keystroke (lit " /docs/ue_1"); ClickQuery]
       (run {| sendMessage := true; registerMessageHandler := true;
               deregisterMessageHandler := true |}
          [Mount; Keystroke (lit "first")] initial_world))
  = [("knowledge_layer"%string, "query_knowledge"%string,
      Some (lit "/docs/ue_1"))].
Proof.
  split; [reflexivity|]. split; [reflexivity|].
  exact (query_sends_latest_text
           {| sendMessage := true; registerMessageHandler := true;
              deregisterMessageHandler := true |}
           (run {| sendMessage := true; registerMessageHandler := true;
                   deregisterMessageHandler := true |}
              [Mount; Keystroke (lit "first")] initial_world)
           (lit " /docs/ue_1") eq_refl eq_refl).
Defined.
